(** * Tesouro Direto downloader: a shallow embedding of [src/tesouro_data.py]

    The Python module downloads yearly spreadsheets of Brazilian treasury
    bonds, keeps them in a directory cache, cleans the sheets and returns one
    consolidated, sorted table.  This file embeds the class [TesouroDireto]
    and the two module-level functions, and proves properties of them.

    Modelling conventions.
    - A Python [str] is a [string] of 8-bit characters (code points below
      256).  In that range the regular-expression class [\d] is exactly
      ['0'..'9'].
    - A Python [int] is a [Z].
    - A call that may raise returns an [outcome]: [Ret v] or [Raise e].
    - The file system and the log of HTTP requests are threaded explicitly
      in a record [World]; the calendar year of a call is an argument.
    - The list bound to the class attribute [AVAILABLE_ASSETS] lives in a
      heap of list objects, which the program reads and [copy] extends.
    - The HTTP session, the spreadsheet reader and the conversions of pandas
      are collaborators, gathered in a record [Env].
    - [print] and [warnings.warn] only emit diagnostics and are left out. *)

From stdpp Require Import gmap strings list.
From Stdlib Require Import ZArith Ascii String Bool Lia DecimalString.
From Stdlib Require Import Floats.SpecFloat Sorting.Sorted.
From Stdlib Require DecimalPos DecimalZ.
From Stdlib Require Import Sorting.Permutation.

Local Open Scope Z_scope.

(* ===================================================================== *)
(** ** Exceptions *)
(* ===================================================================== *)

Inductive exn : Type :=
| ValueError (msg : list string)
| IndexError
| TypeError
| ExcelError                 (* anything pandas raises while opening a file *)
| RequestException           (* connection error, timeout, retries exhausted *)
| HTTPError (status : Z).    (* subclass of RequestException *)

Inductive outcome (A : Type) : Type :=
| Ret (a : A)
| Raise (e : exn).
Arguments Ret {A} a.
Arguments Raise {A} e.

Definition bind {A B} (m : outcome A) (k : A -> outcome B) : outcome B :=
  match m with
  | Ret a => k a
  | Raise e => Raise e
  end.

Notation "'do' x <- m ; k" := (bind m (fun x => k))
  (at level 10, x name, m at level 100, k at level 200).

(** [isinstance(e, requests.exceptions.RequestException)] *)
Definition is_RequestException (e : exn) : bool :=
  match e with
  | RequestException | HTTPError _ => true
  | _ => false
  end.

Definition is_ValueError (e : exn) : bool :=
  match e with
  | ValueError _ => true
  | _ => false
  end.

(** [try: m  except <class>: h] *)
Definition try_except {A} (m : outcome A) (handles : exn -> bool)
    (h : exn -> outcome A) : outcome A :=
  match m with
  | Ret a => Ret a
  | Raise e => if handles e then h e else Raise e
  end.

(* ===================================================================== *)
(** ** Python strings *)
(* ===================================================================== *)

Module PyStr.

(** [str.replace(old, new)] for a non-empty [old]: scan from the left; at
    an occurrence of [old] emit [new] and skip the occurrence.  [skip]
    counts the characters of the occurrence still to be passed over. *)
Fixpoint replace_from (old new : string) (skip : nat) (s : string) : string :=
  match s with
  | EmptyString => EmptyString
  | String c s' =>
      match skip with
      | S k => replace_from old new k s'
      | O =>
          if String.prefix old s
          then String.append new (replace_from old new (String.length old - 1) s')
          else String c (replace_from old new 0 s')
      end
  end.

(** With an empty [old], Python puts [new] before every character and at
    the end. *)
Fixpoint intersperse (new s : string) : string :=
  match s with
  | EmptyString => new
  | String c s' => String.append new (String c (intersperse new s'))
  end.

Definition replace (s old new : string) : string :=
  match old with
  | EmptyString => intersperse new s
  | String _ _ => replace_from old new 0 s
  end.

(** One character of the class [\d]. *)
Definition is_digit (c : ascii) : bool :=
  let n := N_of_ascii c in ((48 <=? n) && (n <=? 57))%N.

Fixpoint all_digits (s : string) : bool :=
  match s with
  | EmptyString => true
  | String c s' => is_digit c && all_digits s'
  end.

(** [str.isspace] on one character, for code points below 256. *)
Definition is_space (c : ascii) : bool :=
  let n := N_of_ascii c in
  (((9 <=? n) && (n <=? 13)) || ((28 <=? n) && (n <=? 32))
   || (n =? 133) || (n =? 160))%N.

Definition newline : string := String (ascii_of_N 10) EmptyString.

(** The pattern [(\d{6})$] tried at the start of [s]: six digits, then the
    end of the string, or one final newline (Python's [$] also matches just
    before a newline that ends the string). *)
Definition match_d6_end (s : string) : option string :=
  let g := String.substring 0 6 s in
  let rest := String.substring 6 (String.length s - 6) s in
  if (String.length g =? 6)%nat && all_digits g
     && (String.eqb rest EmptyString || String.eqb rest newline)
  then Some g else None.

(** [re.search(r'(\d{6})$', s)]: the leftmost start position that matches;
    the result is [group(1)]. *)
Fixpoint re_search_d6_end (s : string) : option string :=
  match match_d6_end s with
  | Some g => Some g
  | None =>
      match s with
      | EmptyString => None
      | String _ s' => re_search_d6_end s'
      end
  end.

(** [int(s)] for a string of decimal digits, which is all the program
    passes to it. *)
Fixpoint int_digits (acc : Z) (s : string) : Z :=
  match s with
  | EmptyString => acc
  | String c s' => int_digits (10 * acc + (Z.of_N (N_of_ascii c) - 48)) s'
  end.

Definition int (s : string) : outcome Z :=
  match s with
  | EmptyString => Raise (ValueError [])
  | String _ _ => if all_digits s then Ret (int_digits 0 s) else Raise (ValueError [])
  end.

(** [str(n)] for an [int]. *)
Definition of_Z (n : Z) : string := NilZero.string_of_int (Z.to_int n).

End PyStr.

(* ===================================================================== *)
(** ** [datetime.date] *)
(* ===================================================================== *)

Record date : Type := mkdate { year : Z; month : Z; day : Z }.

Definition is_leap (y : Z) : bool :=
  (y mod 4 =? 0) && (negb (y mod 100 =? 0) || (y mod 400 =? 0)).

Definition days_in_month (y m : Z) : Z :=
  if m =? 2 then (if is_leap y then 29 else 28)
  else if (m =? 4) || (m =? 6) || (m =? 9) || (m =? 11) then 30
  else 31.

(** The constructor [date(year, month, day)], which raises [ValueError] on a
    date that does not exist. *)
Definition date_new (y m d : Z) : outcome date :=
  if (1 <=? y) && (y <=? 9999) && (1 <=? m) && (m <=? 12)
     && (1 <=? d) && (d <=? days_in_month y m)
  then Ret (mkdate y m d)
  else Raise (ValueError []).

(* ===================================================================== *)
(** ** The asset catalog and the code normalizer *)
(* ===================================================================== *)

Definition AVAILABLE_ASSETS : list string :=
  ["LFT"; "LTN"; "NTN-C"; "NTN-B"; "NTN-B_Principal"; "NTN-F"]%string.

Definition BASE_URL : string :=
  "https://cdn.tesouro.gov.br/sistemas-internos/apex/producao/sistemas/sistd"%string.

Definition FIRST_YEAR : Z := 2005.

Definition _normalize_asset_code (asset_code : string) : string :=
  PyStr.replace (PyStr.replace asset_code " " "_") "-" "_".

Definition _denormalize_asset_code (asset_code : string) : string :=
  let asset_code := PyStr.replace asset_code "NTN_B_Principal" "NTN-B Principal" in
  let asset_code := PyStr.replace asset_code "NTN_F" "NTN-F" in
  let asset_code := PyStr.replace asset_code "NTN_B" "NTN-B" in
  let asset_code := PyStr.replace asset_code "NTN_C" "NTN-C" in
  let asset_code := PyStr.replace asset_code "_" " " in
  asset_code.

(* ===================================================================== *)
(** ** The maturity parser *)
(* ===================================================================== *)

Definition _get_maturity_date (asset_code : string) : option date :=
  match PyStr.re_search_d6_end (PyStr.replace asset_code " " "") with
  | None => None
  | Some date_str =>
      let body :=
        do day <- PyStr.int (String.substring 0 2 date_str);
        do month <- PyStr.int (String.substring 2 2 date_str);
        do year <- PyStr.int (String.substring 4 2 date_str);
        let year := if year <=? 50 then year + 2000 else year + 1900 in
        do d <- date_new year month day;
        Ret (Some d) in
      match try_except body is_ValueError (fun _ => Ret None) with
      | Ret r => r
      | Raise _ => None
      end
  end.

(* ===================================================================== *)
(** ** pandas tables *)
(* ===================================================================== *)

(** One value of a table.  A numeric column holds [float64] values, whose
    missing value is NaN; an [int64] column is read as the floats of the same
    values (only "is missing" and "is zero" are ever asked of a number). *)
Inductive cell : Type :=
| CNull                      (* None, NaT *)
| CNum (x : spec_float)      (* float64 *)
| CStr (s : string)
| CTime (t : Z)              (* Timestamp: nanoseconds since the epoch *)
| CDate (d : date).          (* datetime.date *)

Definition row : Type := list cell.

Record DataFrame : Type := mkDataFrame { columns : list string; rows : list row }.

(** [pd.DataFrame()] *)
Definition DataFrame_new : DataFrame := mkDataFrame [] [].

(** [df.empty]: one of the two axes has length 0. *)
Definition df_empty (df : DataFrame) : bool :=
  (List.length (columns df) =? 0)%nat || (List.length (rows df) =? 0)%nat.

(** [pd.isna] on one value. *)
Definition isna (c : cell) : bool :=
  match c with
  | CNull | CNum S754_nan => true
  | _ => false
  end.

(** [x != 0] on one value of a numeric column. *)
Definition ne_zero (c : cell) : bool :=
  match c with
  | CNum x => negb (SFeqb x (S754_zero false))
  | _ => true
  end.

(** Position of a column label. *)
Fixpoint col_index (name : string) (cols : list string) : option nat :=
  match cols with
  | [] => None
  | c :: cols' =>
      if String.eqb c name then Some 0%nat
      else option_map S (col_index name cols')
  end.

(** [row[name]] in a table with the labels [cols].  The pipeline only reads
    columns it has just created, so the label is always present. *)
Definition get (cols : list string) (name : string) (r : row) : cell :=
  match col_index name cols with
  | Some i => nth i r CNull
  | None => CNull
  end.

Fixpoint set_nth (i : nat) (v : cell) (r : row) : row :=
  match r, i with
  | [], _ => []
  | _ :: r', O => v :: r'
  | c :: r', S i' => c :: set_nth i' v r'
  end.

(** [df.iloc[:, idx]]: an out-of-range position raises [IndexError]. *)
Definition iloc_columns (idx : list nat) (df : DataFrame) : outcome DataFrame :=
  if forallb (fun i => (i <? List.length (columns df))%nat) idx
  then Ret (mkDataFrame (map (fun i => nth i (columns df) EmptyString) idx)
                        (map (fun r => map (fun i => nth i r CNull) idx) (rows df)))
  else Raise IndexError.

(** [df.columns = names]: a wrong number of labels raises [ValueError]. *)
Definition set_columns (names : list string) (df : DataFrame) : outcome DataFrame :=
  if (List.length names =? List.length (columns df))%nat
  then Ret (mkDataFrame names (rows df))
  else Raise (ValueError []).

(** [df.dropna()] *)
Definition dropna (df : DataFrame) : DataFrame :=
  mkDataFrame (columns df) (List.filter (fun r => forallb (fun c => negb (isna c)) r) (rows df)).

(** [df[mask]] *)
Definition select_rows (keep : row -> bool) (df : DataFrame) : DataFrame :=
  mkDataFrame (columns df) (List.filter keep (rows df)).

(** Labels of [pd.concat]: the union, in order of first appearance. *)
Definition union_labels (acc cols : list string) : list string :=
  fold_left (fun acc c => if existsb (String.eqb c) acc then acc else acc ++ [c]) cols acc.

(** [pd.concat(frames, ignore_index=True)]: rows one frame after the other,
    re-read under the union of the labels; a label a frame lacks is missing
    in its rows. *)
Definition pd_concat (frames : list DataFrame) : DataFrame :=
  let labels := fold_left (fun acc df => union_labels acc (columns df)) frames [] in
  mkDataFrame labels
    (flat_map (fun df => map (fun r => map (fun name => get (columns df) name r) labels)
                             (rows df)) frames).

(** [series.apply(f)] for a function on [str]: calling a [str] method on
    another value raises. *)
Fixpoint apply_str (f : string -> cell) (col : list cell) : outcome (list cell) :=
  match col with
  | [] => Ret []
  | CStr s :: col' => do rest <- apply_str f col'; Ret (f s :: rest)
  | _ :: _ => Raise TypeError
  end.

(** [df[name] = values] *)
Definition set_column (name : string) (values : list cell) (df : DataFrame) : DataFrame :=
  match col_index name (columns df) with
  | Some i => mkDataFrame (columns df)
                (map (fun rv => set_nth i (snd rv) (fst rv)) (combine (rows df) values))
  | None => mkDataFrame (columns df ++ [name])
                (map (fun rv => fst rv ++ [snd rv]) (combine (rows df) values))
  end.

(** [df[name]] *)
Definition column (name : string) (df : DataFrame) : list cell :=
  map (get (columns df) name) (rows df).

(** Sort key of [sort_values(['asset_code', 'ref_date'])]. *)
Definition sort_key (cols : list string) (r : row) : cell * cell :=
  (get cols "asset_code" r, get cols "ref_date" r).

Definition key_typed (k : cell * cell) : bool :=
  match k with
  | (CStr _, CTime _) => true
  | _ => false
  end.

(** Ascending order on keys: strings by code points, then timestamps. *)
Definition key_le (k1 k2 : cell * cell) : bool :=
  match k1, k2 with
  | (CStr a1, CTime t1), (CStr a2, CTime t2) =>
      match String.compare a1 a2 with
      | Lt => true
      | Eq => t1 <=? t2
      | Gt => false
      end
  | _, _ => true
  end.

(** Two rows in the order of their keys. *)
Definition rows_in_order (cols : list string) (r1 r2 : row) : Prop :=
  key_le (sort_key cols r1) (sort_key cols r2) = true.

Fixpoint insert_row (cols : list string) (r : row) (sorted : list row) : list row :=
  match sorted with
  | [] => [r]
  | r' :: rest =>
      if key_le (sort_key cols r) (sort_key cols r') then r :: sorted
      else r' :: insert_row cols r rest
  end.

Fixpoint sort_rows (cols : list string) (l : list row) : list row :=
  match l with
  | [] => []
  | r :: l' => insert_row cols r (sort_rows cols l')
  end.

(** [df.sort_values(['asset_code', 'ref_date']).reset_index(drop=True)] as a
    stable sort.  Keys that are not a string and a timestamp are reported as
    [TypeError]. *)
Definition sort_values (df : DataFrame) : outcome DataFrame :=
  if forallb (fun r => key_typed (sort_key (columns df) r)) (rows df)
  then Ret (mkDataFrame (columns df) (sort_rows (columns df) (rows df)))
  else Raise TypeError.

(* ===================================================================== *)
(** ** The world outside the program *)
(* ===================================================================== *)

Definition Path : Type := list string.

(** [p / name] *)
Definition path_join (p : Path) (name : string) : Path := p ++ [name].

Definition bytes : Type := list Byte.byte.

(** The file system and the network log.  The cache tree is taken to be
    writable and used by this program only, so that [mkdir] and
    [open(..., 'wb')] succeed. *)
Record World : Type := mkWorld {
  dirs : gset Path;            (* directories that exist *)
  files : gmap Path bytes;     (* regular files and their contents *)
  requests : list string       (* URLs of the GETs sent so far, oldest first *)
}.

(** The path and all its ancestors. *)
Fixpoint ancestors (p : Path) : list Path :=
  match p with
  | [] => [[]]
  | c :: p' => [] :: map (cons c) (ancestors p')
  end.

(** [p.mkdir(parents=True, exist_ok=True)] *)
Definition mkdir (p : Path) (w : World) : World :=
  mkWorld (dirs w ∪ list_to_set (ancestors p)) (files w) (requests w).

(** [p.exists()] for the path of a cache file: what exists there is a file
    the program has written. *)
Definition file_exists (w : World) (p : Path) : bool :=
  match files w !! p with
  | Some _ => true
  | None => false
  end.

(** [with open(p, 'wb') as f: f.write(data)] *)
Definition write_file (p : Path) (data : bytes) (w : World) : World :=
  mkWorld (dirs w) (<[p := data]> (files w)) (requests w).

Record Response : Type := mkResponse { status_code : Z; content : bytes }.

(** [response.raise_for_status()] *)
Definition raise_for_status (r : Response) : outcome unit :=
  if (400 <=? status_code r) && (status_code r <? 600)
  then Raise (HTTPError (status_code r))
  else Ret tt.

(** The collaborators of the program.
    - [tmpdir]: [tempfile.gettempdir()].
    - [session_get n url]: the answer of [session.get(url, timeout=30)] when
      [n] requests have been sent before; [None] stands for an exception of
      the HTTP library, all of which derive from [RequestException].
    - [excel_sheet_names], [read_excel]: [pd.ExcelFile(path).sheet_names] and
      [pd.read_excel(path, sheet_name=..., skiprows=1)] on the contents of a
      file; they may raise.
    - [to_numeric], [to_datetime]: [pd.to_numeric(errors='coerce')] and
      [pd.to_datetime(format='%d/%m/%Y', errors='coerce')] on one value; what
      does not parse becomes NaN, respectively NaT ([None]). *)
Record Env : Type := mkEnv {
  tmpdir : Path;
  session_get : nat -> string -> option Response;
  excel_sheet_names : bytes -> outcome (list string);
  read_excel : bytes -> string -> outcome DataFrame;
  to_numeric : cell -> spec_float;
  to_datetime : cell -> option Z
}.

(** [session.get(url, timeout=30)], recorded in the log. *)
Definition http_get (env : Env) (url : string) (w : World) : outcome Response * World :=
  let w' := mkWorld (dirs w) (files w) (requests w ++ [url]) in
  match session_get env (List.length (requests w)) url with
  | Some r => (Ret r, w')
  | None => (Raise RequestException, w')
  end.

(* ===================================================================== *)
(** ** The class attribute [AVAILABLE_ASSETS] as a shared list object *)
(* ===================================================================== *)

(** Python lists are objects: the heap maps the identity of a list to its
    current elements. *)
Definition loc : Type := positive.

(** The list object bound to [TesouroDireto.AVAILABLE_ASSETS]. *)
Definition AVAILABLE_ASSETS_ref : loc := 1%positive.

(** The heap right after the module is imported. *)
Definition heap_at_import : gmap loc (list string) :=
  {[ AVAILABLE_ASSETS_ref := AVAILABLE_ASSETS ]}.

(** Reading [self.AVAILABLE_ASSETS] (or [TesouroDireto.AVAILABLE_ASSETS]). *)
Definition class_catalog (h : gmap loc (list string)) : list string :=
  default [] (h !! AVAILABLE_ASSETS_ref).

(** [l.copy()]: a new list object with the same elements. *)
Definition list_copy (l : loc) (h : gmap loc (list string)) : loc * gmap loc (list string) :=
  let l' := fresh (dom h) in
  (l', <[l' := default [] (h !! l)]> h).

(** Any in-place change of the list object [l]: [append], [clear],
    [l[i] = x], [sort], ... *)
Definition mutate (l : loc) (f : list string -> list string)
    (h : gmap loc (list string)) : gmap loc (list string) :=
  alter f l h.

(* ===================================================================== *)
(** ** class TesouroDireto *)
(* ===================================================================== *)

Record TesouroDireto : Type := mkTesouroDireto { cache_dir : Path }.

(** [TesouroDireto.__init__]: the HTTP session with its retry policy is the
    collaborator [session_get]. *)
Definition __init__ (env : Env) (cache_dir : option Path) (w : World)
    : TesouroDireto * World :=
  let cache_dir :=
    match cache_dir with
    | None => path_join (tmpdir env) "td-files"
    | Some d => d
    end in
  (mkTesouroDireto cache_dir, mkdir cache_dir w).

(** [TesouroDireto.get_available_assets]: returns the identity of the new
    list. *)
Definition get_available_assets_method (self : TesouroDireto)
    (h : gmap loc (list string)) : loc * gmap loc (list string) :=
  list_copy AVAILABLE_ASSETS_ref h.

Definition cache_filename (asset_code : string) (year : Z) : string :=
  let normalized_code := _normalize_asset_code asset_code in
  String.append normalized_code
    (String.append "_" (String.append (PyStr.of_Z year) ".xls")).

(** The deterministic cache path of an (asset, year) pair. *)
Definition cache_path (self : TesouroDireto) (asset_code : string) (year : Z) : Path :=
  let normalized_code := _normalize_asset_code asset_code in
  let asset_folder := path_join (cache_dir self) normalized_code in
  path_join asset_folder (cache_filename asset_code year).

Definition download_url (asset_code : string) (year : Z) : string :=
  String.append BASE_URL
    (String.append "/" (String.append (PyStr.of_Z year)
       (String.append "/" (cache_filename asset_code year)))).

(** [current_year] is [datetime.now().year] at the time of the call. *)
Definition _download_file (env : Env) (self : TesouroDireto) (current_year : Z)
    (asset_code : string) (year : Z) (w : World) : outcome (option Path) * World :=
  let normalized_code := _normalize_asset_code asset_code in
  let asset_folder := path_join (cache_dir self) normalized_code in
  let w := mkdir asset_folder w in
  let filename := cache_filename asset_code year in
  let local_file := path_join asset_folder filename in
  if file_exists w local_file && negb (year =? current_year)
  then (Ret (Some local_file), w)
  else
    let url := download_url asset_code year in
    (* try: *)
    let '(got, w) := http_get env url w in
    let checked := do response <- got; do _ <- raise_for_status response; Ret response in
    match checked with
    | Ret response => (Ret (Some local_file), write_file local_file (content response) w)
    | Raise e =>
        (* except requests.exceptions.RequestException: *)
        if is_RequestException e then (Ret None, w) else (Raise e, w)
    end.

Definition CLEAN_COLUMNS : list string :=
  ["ref_date"; "yield_bid"; "yield_ask"; "price_bid"; "price_ask"]%string.

(** [df[col] = pd.to_numeric(df[col], errors='coerce')] *)
Definition to_numeric_column (env : Env) (col : string) (df : DataFrame) : DataFrame :=
  set_column col (map (fun c => CNum (to_numeric env c)) (column col df)) df.

(** [df[col] = pd.to_datetime(df[col], format='%d/%m/%Y', errors='coerce')] *)
Definition to_datetime_column (env : Env) (col : string) (df : DataFrame) : DataFrame :=
  set_column col
    (map (fun c => match to_datetime env c with Some t => CTime t | None => CNull end)
         (column col df)) df.

Definition _clean_data (env : Env) (df : DataFrame) : outcome DataFrame :=
  if df_empty df then Ret df
  else
    do df <- iloc_columns [0; 1; 2; 3; 4]%nat df;
    do df <- set_columns CLEAN_COLUMNS df;
    let df :=
      fold_left (fun df col => to_numeric_column env col df)
        ["yield_bid"; "yield_ask"; "price_bid"; "price_ask"]%string df in
    let df := to_datetime_column env "ref_date" df in
    let df := dropna df in
    let df := select_rows (fun r => ne_zero (get (columns df) "price_bid" r)) df in
    Ret df.

(** The loop over the sheets of one file. *)
Fixpoint read_sheets (env : Env) (data : bytes) (sheet_names : list string)
    (all_data : list DataFrame) : outcome (list DataFrame) :=
  match sheet_names with
  | [] => Ret all_data
  | sheet_name :: rest =>
      do df <- read_excel env data sheet_name;
      if negb (df_empty df) then
        do df <- _clean_data env df;
        if negb (df_empty df) then
          let df := set_column "asset_code"
                      (map (fun _ => CStr sheet_name) (rows df)) df in
          read_sheets env data rest (all_data ++ [df])
        else read_sheets env data rest all_data
      else read_sheets env data rest all_data
  end.

(** Opening a path that holds no file raises. *)
Definition open_file (w : World) (p : Path) : outcome bytes :=
  match files w !! p with
  | Some data => Ret data
  | None => Raise ExcelError
  end.

(** The body of the [try] of [_read_excel_file]. *)
Definition read_excel_body (env : Env) (w : World) (file_path : Path) : outcome DataFrame :=
  do data <- open_file w file_path;
  do sheet_names <- excel_sheet_names env data;
  do all_data <- read_sheets env data sheet_names [];
  match all_data with
  | _ :: _ => Ret (pd_concat all_data)
  | [] => Ret DataFrame_new
  end.

Definition _read_excel_file (env : Env) (w : World) (file_path : Path) : outcome DataFrame :=
  try_except (read_excel_body env w file_path)
    (* except Exception: *)
    (fun _ => true)
    (fun _ => Ret DataFrame_new).

(** [list(range(first, stop))] *)
Definition range (first stop : Z) : list Z :=
  map (fun i => first + Z.of_nat i) (seq 0 (Z.to_nat (stop - first))).

(** [code in catalog] *)
Definition list_contains (catalog : list string) (code : string) : bool :=
  existsb (String.eqb code) catalog.

(** The inner loop of the download phase: the years of one asset. *)
Fixpoint download_years (env : Env) (self : TesouroDireto) (current_year : Z)
    (asset_code : string) (years : list Z) (all_files : list Path) (w : World)
    : outcome (list Path) * World :=
  match years with
  | [] => (Ret all_files, w)
  | year :: rest =>
      match _download_file env self current_year asset_code year w with
      | (Ret (Some file_path), w) =>
          download_years env self current_year asset_code rest (all_files ++ [file_path]) w
      | (Ret None, w) =>
          download_years env self current_year asset_code rest all_files w
      | (Raise e, w) => (Raise e, w)
      end
  end.

(** The outer loop of the download phase: the requested assets. *)
Fixpoint download_assets (env : Env) (self : TesouroDireto) (current_year : Z)
    (asset_codes : list string) (years : list Z) (all_files : list Path) (w : World)
    : outcome (list Path) * World :=
  match asset_codes with
  | [] => (Ret all_files, w)
  | asset_code :: rest =>
      match download_years env self current_year asset_code years all_files w with
      | (Ret all_files, w) =>
          download_assets env self current_year rest years all_files w
      | (Raise e, w) => (Raise e, w)
      end
  end.

(** The loop of the processing phase. *)
Fixpoint read_files (env : Env) (w : World) (all_files : list Path)
    (all_data : list DataFrame) : outcome (list DataFrame) :=
  match all_files with
  | [] => Ret all_data
  | file_path :: rest =>
      do df <- _read_excel_file env w file_path;
      if negb (df_empty df) then read_files env w rest (all_data ++ [df])
      else read_files env w rest all_data
  end.

Definition maturity_cell (asset_code : string) : cell :=
  match _get_maturity_date asset_code with
  | Some d => CDate d
  | None => CNull
  end.

(** Consolidation: the part of [get_treasury_data] after the two loops. *)
Definition consolidate (all_data : list DataFrame) : outcome DataFrame :=
  let result := pd_concat all_data in
  do codes <- apply_str (fun s => CStr (_denormalize_asset_code s))
                        (column "asset_code" result);
  let result := set_column "asset_code" codes result in
  do maturities <- apply_str maturity_cell (column "asset_code" result);
  let result := set_column "maturity_date" maturities result in
  sort_values result.

(** [TesouroDireto.get_treasury_data].  [h] is the heap the class attribute
    is read from; [current_year] is the calendar year during the call.
    The copy of the catalog taken as default is a list of the call's own,
    which nothing changes, so only its elements appear here.
    [warnings.warn] only emits a diagnostic. *)
Definition get_treasury_data_method (env : Env) (h : gmap loc (list string))
    (self : TesouroDireto) (current_year : Z)
    (asset_codes : option (list string)) (first_year : Z) (last_year : option Z)
    (w : World) : outcome DataFrame * World :=
  let first_year := if first_year <? FIRST_YEAR then FIRST_YEAR else first_year in
  let last_year := match last_year with None => current_year | Some y => y end in
  let asset_codes :=
    match asset_codes with None => class_catalog h | Some l => l end in
  let invalid_codes :=
    List.filter (fun code => negb (list_contains (class_catalog h) code)) asset_codes in
  match invalid_codes with
  | _ :: _ => (Raise (ValueError invalid_codes), w)
  | [] =>
      let years := range first_year (last_year + 1) in
      match download_assets env self current_year asset_codes years [] w with
      | (Raise e, w) => (Raise e, w)
      | (Ret [], w) => (Ret DataFrame_new, w)
      | (Ret all_files, w) =>
          match read_files env w all_files [] with
          | Raise e => (Raise e, w)
          | Ret [] => (Ret DataFrame_new, w)
          | Ret all_data => (consolidate all_data, w)
          end
      end
  end.

(** The module-level [get_treasury_data]. *)
Definition get_treasury_data (env : Env) (h : gmap loc (list string)) (current_year : Z)
    (asset_codes : option (list string)) (first_year : Z) (last_year : option Z)
    (cache_dir : option Path) (w : World) : outcome DataFrame * World :=
  let '(tesouro, w) := __init__ env cache_dir w in
  get_treasury_data_method env h tesouro current_year asset_codes first_year last_year w.

(** The module-level [get_available_assets]. *)
Definition get_available_assets (h : gmap loc (list string)) : loc * gmap loc (list string) :=
  list_copy AVAILABLE_ASSETS_ref h.

(* ===================================================================== *)
(** ** A small concrete environment, used to run the model *)
(* ===================================================================== *)

Module Demo.

(** dd/mm/yyyy read as the number yyyymmdd, which orders like the date. *)
Definition parse_dmy (s : string) : option Z :=
  let d := String.substring 0 2 s in
  let m := String.substring 3 2 s in
  let y := String.substring 6 4 s in
  if (String.length s =? 10)%nat && PyStr.all_digits d && PyStr.all_digits m
     && PyStr.all_digits y
     && String.eqb (String.substring 2 1 s) "/" && String.eqb (String.substring 5 1 s) "/"
  then Some (PyStr.int_digits 0 y * 10000 + PyStr.int_digits 0 m * 100 + PyStr.int_digits 0 d)
  else None.

Definition num (mantissa : positive) : cell := CNum (S754_finite false mantissa 0).

(** Two sheets; the first has a row with a text yield, a row with a zero
    price and a row with a bad date. *)
Definition sheet (name : string) : DataFrame :=
  if String.eqb name "LTN 010125" then
    mkDataFrame ["Dia"; "Taxa Compra"; "Taxa Venda"; "PU Compra"; "PU Venda"; "PU Base"]%string
      [ [CStr "03/01/2020"; num 5; num 6; num 900; num 899; num 899];
        [CStr "02/01/2020"; CStr "n/d"; num 6; num 901; num 900; num 900];
        [CStr "02/01/2020"; num 5; num 6; CNum (S754_zero false); num 1; num 1];
        [CStr "2020-01-02"; num 5; num 6; num 902; num 901; num 901];
        [CStr "02/01/2020"; num 5; num 6; num 903; num 902; num 902] ]%string
  else
    mkDataFrame ["Dia"; "Taxa Compra"; "Taxa Venda"; "PU Compra"; "PU Venda"; "PU Base"]%string
      [ [CStr "02/01/2020"; num 4; num 5; num 990; num 989; num 989] ]%string.

Definition env : Env :=
  mkEnv ["tmp"]%string
    (fun _ _ => Some (mkResponse 200 [Byte.x01]))
    (fun _ => Ret ["LTN 010125"; "LTN 010123"]%string)
    (fun _ name => Ret (sheet name))
    (fun c => match c with CNum x => x | _ => S754_nan end)
    (fun c => match c with CStr s => parse_dmy s | CTime t => Some t | _ => None end).

(** The same environment with a network that always fails. *)
Definition offline : Env :=
  mkEnv (tmpdir env) (fun _ _ => None) (excel_sheet_names env) (read_excel env)
        (to_numeric env) (to_datetime env).

Definition empty_world : World := mkWorld ∅ ∅ [].

Definition td : TesouroDireto := mkTesouroDireto ["cache"]%string.

End Demo.

(** The five cleaned values of one raw row: what the conversions of
    [_clean_data] make of its first five cells. *)
Definition coerce_row (env : Env) (r : row) : row :=
  [ match to_datetime env (nth 0 r CNull) with Some t => CTime t | None => CNull end;
    CNum (to_numeric env (nth 1 r CNull));
    CNum (to_numeric env (nth 2 r CNull));
    CNum (to_numeric env (nth 3 r CNull));
    CNum (to_numeric env (nth 4 r CNull)) ].

(** A converted row survives when none of its values is missing and its bid
    price is not zero. *)
Definition row_kept (r : row) : bool :=
  forallb (fun c => negb (isna c)) r && ne_zero (nth 3 r CNull).

(** The property of a cleaned row, in a table with the labels [cols]. *)
Definition row_is_clean (cols : list string) (r : row) : Prop :=
  (forall name, In name CLEAN_COLUMNS -> isna (get cols name r) = false) /\
  ne_zero (get cols "price_bid" r) = true.

(** Labels of the table of one file, and of the consolidated table. *)
Definition FILE_COLUMNS : list string := CLEAN_COLUMNS ++ ["asset_code"%string].

Definition OUTPUT_COLUMNS : list string := FILE_COLUMNS ++ ["maturity_date"%string].

(** The order of the consolidated table, in the words of its description:
    the first row's code is strictly smaller, or the codes are equal and the
    first row's date is not later. *)
Definition row_before (cols : list string) (r1 r2 : row) : Prop :=
  exists a1 t1 a2 t2,
    get cols "asset_code" r1 = CStr a1 /\ get cols "ref_date" r1 = CTime t1 /\
    get cols "asset_code" r2 = CStr a2 /\ get cols "ref_date" r2 = CTime t2 /\
    (String.ltb a1 a2 = true \/ (a1 = a2 /\ t1 <= t2)).

Definition sorted_by_code_and_date (df : DataFrame) : Prop :=
  forall (i : nat) (r1 r2 : row),
    nth_error (rows df) i = Some r1 -> nth_error (rows df) (S i) = Some r2 ->
    row_before (columns df) r1 r2.

(** The codes the call works on, and whether they all are in the catalog. *)
Definition requested_codes (h : gmap loc (list string))
    (asset_codes : option (list string)) : list string :=
  match asset_codes with None => class_catalog h | Some l => l end.

Definition codes_valid (h : gmap loc (list string))
    (asset_codes : option (list string)) : Prop :=
  forall c, In c (requested_codes h asset_codes) ->
            list_contains (class_catalog h) c = true.

(** The bounds of the year range after clamping and defaulting. *)
Definition effective_first_year (first_year : Z) : Z :=
  if first_year <? FIRST_YEAR then FIRST_YEAR else first_year.

Definition effective_last_year (current_year : Z) (last_year : option Z) : Z :=
  match last_year with None => current_year | Some y => y end.

(** A request answered with a status that [raise_for_status] accepts. *)
Definition http_success (env : Env) (n : nat) (url : string) : option Response :=
  match session_get env n url with
  | Some r => if (400 <=? status_code r) && (status_code r <? 600) then None else Some r
  | None => None
  end.

(** A raw row one of whose first five cells does not convert, or whose bid
    price converts to zero. *)
Definition row_fails (env : Env) (r : row) : Prop :=
  to_datetime env (nth 0 r CNull) = None \/
  (exists i, (1 <= i <= 4)%nat /\ to_numeric env (nth i r CNull) = S754_nan) \/
  ne_zero (CNum (to_numeric env (nth 3 r CNull))) = false.

(** The two decimal digits of a year of the century. *)
Definition two_digits (n : Z) : string :=
  String (ascii_of_N (Z.to_N (48 + n / 10)))
    (String (ascii_of_N (Z.to_N (48 + n mod 10))) EmptyString).

Definition century_rule_holds (n : Z) : bool :=
  match _get_maturity_date (String.append "LTN 0101" (two_digits n)) with
  | Some d =>
      (year d =? (if n <=? 50 then 2000 + n else 1900 + n))
      && (month d =? 1) && (day d =? 1)
  | None => false
  end.

(** A row of the table of one file: a date, four numbers and the name of the
    sheet. *)
Definition tagged_row (r : row) : Prop :=
  exists t a b c d s, r = [CTime t; CNum a; CNum b; CNum c; CNum d; CStr s].

(** The table [_read_excel_file] builds from a file with usable rows. *)
Definition file_table (df : DataFrame) : Prop :=
  columns df = FILE_COLUMNS /\ rows df <> [] /\ Forall tagged_row (rows df).

(** The row of the consolidated table made from a row of a file table: the
    code in display form, and the maturity date read from it. *)
Definition finalize_row (r : row) : row :=
  match r with
  | [t; a; b; c; d; CStr s] =>
      [t; a; b; c; d; CStr (_denormalize_asset_code s);
       maturity_cell (_denormalize_asset_code s)]
  | _ => r
  end.

(** The description of the maturity parser speaks of the code with all its
    whitespace stripped and of the run of digits that ends it.  These two
    definitions follow those words; they are not part of the program, which
    removes the character [' '] only. *)
Fixpoint strip_whitespace (s : string) : string :=
  match s with
  | EmptyString => EmptyString
  | String c s' =>
      if PyStr.is_space c then strip_whitespace s' else String c (strip_whitespace s')
  end.

(** Length of the longest run of digits that ends [s]. *)
Fixpoint trailing_digits (s : string) : nat :=
  match s with
  | EmptyString => 0
  | String c s' =>
      let n := trailing_digits s' in
      if (n =? String.length s')%nat && PyStr.is_digit c then S n else n
  end.

(* ===================================================================== *)
(** ** Vocabulary of the further properties *)
(* ===================================================================== *)

(** The character that stands for [c] in the storage form of a code. *)
Definition storage_char (c : ascii) : ascii :=
  if Ascii.eqb c " " || Ascii.eqb c "-" then "_"%char else c.

Fixpoint string_map (f : ascii -> ascii) (s : string) : string :=
  match s with
  | EmptyString => EmptyString
  | String c s' => String (f c) (string_map f s')
  end.

(** [c in s] *)
Fixpoint contains_char (c : ascii) (s : string) : bool :=
  match s with
  | EmptyString => false
  | String c' s' => Ascii.eqb c' c || contains_char c s'
  end.

(** [s[n:]] *)
Fixpoint string_drop (n : nat) (s : string) : string :=
  match n, s with
  | O, _ => s
  | S n', EmptyString => EmptyString
  | S n', String _ s' => string_drop n' s'
  end.

(** The date six digits [ddmmyy] stand for under the century rule, if that
    date exists. *)
Definition decode_ddmmyy (g : string) : option date :=
  let day := PyStr.int_digits 0 (String.substring 0 2 g) in
  let month := PyStr.int_digits 0 (String.substring 2 2 g) in
  let yy := PyStr.int_digits 0 (String.substring 4 2 g) in
  match date_new (if yy <=? 50 then yy + 2000 else yy + 1900) month day with
  | Ret d => Some d
  | Raise _ => None
  end.


(** The years the call walks through. *)
Definition requested_years (current_year first_year : Z) (last_year : option Z) : list Z :=
  range (effective_first_year first_year) (effective_last_year current_year last_year + 1).

(** What fetching the pairs [pairs] may do to the world: GETs for those pairs
    only, at most one each; no content changed but at their cache paths; no
    file and no directory removed. *)
Definition fetch_effects (self : TesouroDireto) (pairs : list (string * Z))
    (w w' : World) : Prop :=
  (exists new,
      requests w' = requests w ++ new /\
      (List.length new <= List.length pairs)%nat /\
      forall u, In u new ->
                exists c y, In (c, y) pairs /\ u = download_url c y) /\
  (forall q, (forall c y, In (c, y) pairs -> q <> cache_path self c y) ->
             files w' !! q = files w !! q) /\
  (forall q, file_exists w q = true -> file_exists w' q = true) /\
  (forall d, d ∈ dirs w -> d ∈ dirs w').

(** The paths a fetch of [pairs] hands over: cache paths of those pairs, with
    a file behind each. *)
Definition fetched_paths (self : TesouroDireto) (pairs : list (string * Z))
    (w' : World) (paths : list Path) : Prop :=
  forall p, In p paths ->
            (exists c y, In (c, y) pairs /\ p = cache_path self c y) /\
            file_exists w' p = true.


(** A sheet whose reading stops the reading of its file: the reader raises
    on it, or it has rows under fewer than five columns. *)
Definition sheet_unreadable (env : Env) (data : bytes) (sheet_name : string) : Prop :=
  (exists e, read_excel env data sheet_name = Raise e) \/
  (exists df, read_excel env data sheet_name = Ret df /\
              df_empty df = false /\ (List.length (columns df) < 5)%nat).

(** A sheet the reader returns, empty or with at least five columns. *)
Definition sheet_readable (env : Env) (data : bytes) (sheet_name : string) : Prop :=
  exists df, read_excel env data sheet_name = Ret df /\
             (df_empty df = true \/ (5 <= List.length (columns df))%nat).

(** The rows one sheet gives to the table of its file: its converted rows
    that are kept, each followed by the name of the sheet. *)
Definition sheet_records (env : Env) (data : bytes) (sheet_name : string) : list row :=
  match read_excel env data sheet_name with
  | Ret df =>
      if df_empty df then []
      else map (fun r => r ++ [CStr sheet_name])
               (List.filter row_kept (map (coerce_row env) (rows df)))
  | Raise _ => []
  end.

(** A row of the table of a file, with where it comes from: a raw row whose
    conversion is kept, and the name of a sheet. *)
Definition record_row (env : Env) (r : row) : Prop :=
  exists raw sheet_name,
    row_kept (coerce_row env raw) = true /\
    r = coerce_row env raw ++ [CStr sheet_name].

Definition record_table (env : Env) (df : DataFrame) : Prop :=
  file_table df /\ Forall (record_row env) (rows df).


(** The environment of [Demo] with a second sheet of notes, which has two
    columns only. *)
Definition demo_notes_env : Env :=
  mkEnv (tmpdir Demo.env) (session_get Demo.env)
    (fun _ => Ret ["LTN 010125"; "Notas"]%string)
    (fun data name =>
       if String.eqb name "Notas"
       then Ret (mkDataFrame ["Nota"; "Texto"]%string [[CStr "1"; CStr "sem dados"]]%string)
       else read_excel Demo.env data name)
    (to_numeric Demo.env) (to_datetime Demo.env).

(** A world whose cache holds the file of LTN for 2020. *)
Definition demo_cached_world : World :=
  write_file (cache_path Demo.td "LTN" 2020) [Byte.x02] Demo.empty_world.

(* ===================================================================== *)
(** * Properties *)
(* ===================================================================== *)

(** ** Sanity checks of the embedding on the docstrings' examples *)

Example normalize_docstring_input :
  _normalize_asset_code "NTN-B Principal" = "NTN_B_Principal"%string.
Proof. reflexivity. Qed.

Example denormalize_docstring_example :
  _denormalize_asset_code "NTN_B_Principal" = "NTN-B Principal"%string.
Proof. reflexivity. Qed.

Example replace_is_non_overlapping : PyStr.replace "aaa" "aa" "b" = "ba"%string.
Proof. reflexivity. Qed.

Example replace_empty_pattern : PyStr.replace "ab" "" "-" = "-a-b-"%string.
Proof. reflexivity. Qed.

Example search_before_final_newline :
  PyStr.re_search_d6_end (String.append "LTN010123" PyStr.newline) = Some "010123"%string.
Proof. reflexivity. Qed.

Example trailing_digits_ex : trailing_digits "NTN-B1505 45" = 2%nat.
Proof. reflexivity. Qed.

Example cache_path_ex :
  cache_path Demo.td "NTN-B Principal" 2020
  = ["cache"; "NTN_B_Principal"; "NTN_B_Principal_2020.xls"]%string.
Proof. reflexivity. Qed.

Example download_url_ex :
  download_url "LTN" 2020
  = String.append BASE_URL "/2020/LTN_2020.xls".
Proof. reflexivity. Qed.

(** Two runs for a past year send one request; two runs for the current year
    send two. *)
Example past_year_fetched_once :
  let run := get_treasury_data Demo.env heap_at_import 2024 (Some ["LTN"%string])
               2020 (Some 2020) None in
  requests (snd (run (snd (run Demo.empty_world)))) = [download_url "LTN" 2020].
Proof. vm_compute. reflexivity. Qed.

Example current_year_fetched_again :
  let run := get_treasury_data Demo.env heap_at_import 2020 (Some ["LTN"%string])
               2020 (Some 2020) None in
  requests (snd (run (snd (run Demo.empty_world))))
  = [download_url "LTN" 2020; download_url "LTN" 2020].
Proof. vm_compute. reflexivity. Qed.

(** The same request on the same cache gives the same table. *)
Example second_run_same_table :
  let run := get_treasury_data Demo.env heap_at_import 2024 (Some ["LTN"%string])
               2020 (Some 2020) None in
  fst (run (snd (run Demo.empty_world))) = fst (run Demo.empty_world).
Proof. vm_compute. reflexivity. Qed.

(** A sheet with fewer than five columns makes [iloc] raise; the reader
    turns that into the empty table. *)
Example narrow_sheet_raises :
  _clean_data Demo.env (mkDataFrame ["Dia"; "Taxa"]%string [[CStr "02/01/2020"; Demo.num 5]])
  = Raise IndexError.
Proof. reflexivity. Qed.

(* ===================================================================== *)
(** ** Code normalizer *)
(* ===================================================================== *)

(** C1, as stated, fails: the catalog entry "NTN-B_Principal" is written with
    an underscore, and the round trip gives back the display name
    "NTN-B Principal", with a space. *)
Lemma C1_roundtrip_principal_differs :
  In "NTN-B_Principal"%string AVAILABLE_ASSETS /\
  _denormalize_asset_code (_normalize_asset_code "NTN-B_Principal")
    <> "NTN-B_Principal"%string.
Proof.
  split.
  - unfold AVAILABLE_ASSETS. simpl. tauto.
  - vm_compute. discriminate.
Qed.

(** C1 (amended): normalizing and then denormalizing returns every catalog
    code other than "NTN-B_Principal" unchanged, and maps "NTN-B_Principal"
    to the display name "NTN-B Principal". *)
Theorem C1_roundtrip_catalog :
  (forall code : string,
      In code AVAILABLE_ASSETS -> code <> "NTN-B_Principal"%string ->
      _denormalize_asset_code (_normalize_asset_code code) = code) /\
  _denormalize_asset_code (_normalize_asset_code "NTN-B_Principal")
    = "NTN-B Principal"%string.
Proof.
  split; [| reflexivity].
  intros code Hin Hne. unfold AVAILABLE_ASSETS in Hin. simpl in Hin.
  repeat (destruct Hin as [<- | Hin]; [try reflexivity; congruence |]).
  contradiction.
Qed.

Lemma C1_roundtrip_catalog_witness :
  In "NTN-B"%string AVAILABLE_ASSETS /\
  "NTN-B"%string <> "NTN-B_Principal"%string /\
  _denormalize_asset_code (_normalize_asset_code "NTN-B") = "NTN-B"%string.
Proof.
  assert (Hin : In "NTN-B"%string AVAILABLE_ASSETS) by (simpl; tauto).
  assert (Hne : "NTN-B"%string <> "NTN-B_Principal"%string) by discriminate.
  split; [exact Hin |]. split; [exact Hne |].
  exact (proj1 C1_roundtrip_catalog "NTN-B"%string Hin Hne).
Defined.

(* ===================================================================== *)
(** ** Maturity parser *)
(* ===================================================================== *)


(** *** What a match of [(\d{6})$] says about the string *)

Lemma append_cons (c : ascii) (a b : string) :
  String.append (String c a) b = String c (String.append a b).
Proof. reflexivity. Qed.

Lemma append_nil (b : string) : String.append EmptyString b = b.
Proof. reflexivity. Qed.

Lemma substring_all (s : string) : String.substring 0 (String.length s) s = s.
Proof. induction s as [| c s IH]; simpl; [reflexivity | now rewrite IH]. Qed.

Lemma substring_split (s : string) (n : nat) :
  String.append (String.substring 0 n s)
                (String.substring n (String.length s - n) s) = s.
Proof.
  revert n. induction s as [| c s IH]; intros [| n]; simpl; try reflexivity.
  - now rewrite substring_all.
  - now rewrite append_cons, IH.
Qed.

Lemma match_d6_end_spec (s g : string) :
  PyStr.match_d6_end s = Some g ->
  exists rest, s = String.append g rest /\ String.length g = 6%nat /\
               PyStr.all_digits g = true /\
               (rest = EmptyString \/ rest = PyStr.newline).
Proof.
  unfold PyStr.match_d6_end. intros H.
  destruct (_ && _ && _) eqn:E; [| discriminate].
  injection H as <-.
  apply andb_prop in E as [E Hrest]. apply andb_prop in E as [Hlen Hdig].
  exists (String.substring 6 (String.length s - 6) s).
  split; [symmetry; apply substring_split |].
  split; [now apply Nat.eqb_eq |]. split; [exact Hdig |].
  apply orb_prop in Hrest as [Hr | Hr]; apply String.eqb_eq in Hr; auto.
Qed.

Lemma re_search_d6_end_cons (c : ascii) (s : string) :
  PyStr.re_search_d6_end (String c s)
  = match PyStr.match_d6_end (String c s) with
    | Some g => Some g
    | None => PyStr.re_search_d6_end s
    end.
Proof. reflexivity. Qed.

Lemma re_search_d6_end_spec (s g : string) :
  PyStr.re_search_d6_end s = Some g ->
  exists pre rest, s = String.append pre (String.append g rest) /\
                   String.length g = 6%nat /\ PyStr.all_digits g = true /\
                   (rest = EmptyString \/ rest = PyStr.newline).
Proof.
  induction s as [| c s IH]; intros H.
  - discriminate H.
  - rewrite re_search_d6_end_cons in H.
    destruct (PyStr.match_d6_end (String c s)) eqn:E.
    + injection H as ->. apply match_d6_end_spec in E as (rest & ? & ?).
      exists EmptyString, rest. auto.
    + destruct (IH H) as (pre & rest & -> & ?).
      exists (String c pre), rest. auto.
Qed.

Lemma digit_not_space (c : ascii) : PyStr.is_digit c = true -> PyStr.is_space c = false.
Proof.
  unfold PyStr.is_digit, PyStr.is_space. cbv zeta. intros H.
  apply andb_prop in H as [H1 H2]. apply N.leb_le in H1, H2.
  repeat match goal with
         | |- context [N.leb ?a ?b] => destruct (N.leb_spec a b)
         | |- context [N.eqb ?a ?b] => destruct (N.eqb_spec a b)
         end; simpl; try reflexivity; lia.
Qed.

Lemma strip_whitespace_app (a b : string) :
  strip_whitespace (String.append a b)
  = String.append (strip_whitespace a) (strip_whitespace b).
Proof.
  induction a as [| c a IH]; [reflexivity |].
  rewrite append_cons. cbn [strip_whitespace].
  destruct (PyStr.is_space c); now rewrite ?append_cons, IH.
Qed.

Lemma strip_whitespace_digits (g : string) :
  PyStr.all_digits g = true -> strip_whitespace g = g.
Proof.
  induction g as [| c g IH]; simpl; [reflexivity |]. intros H.
  apply andb_prop in H as [Hc Hg]. rewrite (digit_not_space c Hc).
  now rewrite IH.
Qed.

Lemma replace_from_cons0 (old new : string) (c : ascii) (s : string) :
  PyStr.replace_from old new 0 (String c s)
  = if String.prefix old (String c s)
    then String.append new (PyStr.replace_from old new (String.length old - 1) s)
    else String c (PyStr.replace_from old new 0 s).
Proof. reflexivity. Qed.

Lemma prefix_single (a c : ascii) (s : string) :
  String.prefix (String a EmptyString) (String c s)
  = if ascii_dec a c then true else false.
Proof. simpl. destruct (ascii_dec a c); [destruct s |]; reflexivity. Qed.

(** [replace(' ', '')] removes characters that [strip_whitespace] removes
    as well. *)
Lemma strip_whitespace_remove_spaces (s : string) :
  strip_whitespace (PyStr.replace s " " "") = strip_whitespace s.
Proof.
  unfold PyStr.replace. induction s as [| c s IH]; [reflexivity |].
  rewrite replace_from_cons0, prefix_single.
  destruct (ascii_dec " " c) as [<- | Hne].
  - rewrite append_nil. exact IH.
  - cbn [strip_whitespace]. now rewrite IH.
Qed.

Lemma trailing_digits_all (g : string) :
  PyStr.all_digits g = true -> trailing_digits g = String.length g.
Proof.
  induction g as [| c g IH]; simpl; [reflexivity |]. intros H.
  apply andb_prop in H as [Hc Hg]. rewrite (IH Hg), Nat.eqb_refl, Hc.
  reflexivity.
Qed.

Lemma trailing_digits_app (pre g : string) :
  PyStr.all_digits g = true ->
  (String.length g <= trailing_digits (String.append pre g))%nat.
Proof.
  intros Hg. induction pre as [| c pre IH].
  - rewrite append_nil, (trailing_digits_all g Hg). lia.
  - rewrite append_cons. cbn [trailing_digits]. destruct (_ && _); lia.
Qed.

Lemma string_app_empty_r (s : string) : String.append s EmptyString = s.
Proof.
  induction s as [| c s IH]; [reflexivity | now rewrite append_cons, IH].
Qed.

(** A match leaves at least six digits at the end of the code without its
    whitespace. *)
Lemma search_gives_six_trailing_digits (s g : string) :
  PyStr.re_search_d6_end (PyStr.replace s " " "") = Some g ->
  (6 <= trailing_digits (strip_whitespace s))%nat.
Proof.
  intros H. apply re_search_d6_end_spec in H as (pre & rest & E & Hlen & Hdig & Hrest).
  rewrite <- strip_whitespace_remove_spaces, E.
  rewrite !strip_whitespace_app, (strip_whitespace_digits g Hdig).
  assert (Hr : strip_whitespace rest = EmptyString)
    by (destruct Hrest as [-> | ->]; reflexivity).
  rewrite Hr, string_app_empty_r, <- Hlen.
  now apply trailing_digits_app.
Qed.

Lemma digit_value (c : ascii) :
  PyStr.is_digit c = true -> 0 <= Z.of_N (N_of_ascii c) - 48 <= 9.
Proof.
  unfold PyStr.is_digit. cbv zeta. intros H.
  apply andb_prop in H as [H1 H2]. apply N.leb_le in H1, H2. lia.
Qed.

Lemma int_two_digits (c1 c2 : ascii) :
  PyStr.is_digit c1 = true -> PyStr.is_digit c2 = true ->
  exists n, PyStr.int (String c1 (String c2 EmptyString)) = Ret n /\ 0 <= n < 100.
Proof.
  intros H1 H2. unfold PyStr.int. cbn [PyStr.all_digits]. rewrite H1, H2.
  cbn [andb PyStr.int_digits].
  eexists. split; [reflexivity |].
  pose proof (digit_value c1 H1). pose proof (digit_value c2 H2). lia.
Qed.

(** Every date the parser returns has the year the century rule gives to the
    last two digits of the matched group. *)
Lemma maturity_year_rule (asset_code : string) (d : date) :
  _get_maturity_date asset_code = Some d ->
  exists g yy,
    PyStr.re_search_d6_end (PyStr.replace asset_code " " "") = Some g /\
    PyStr.int (String.substring 4 2 g) = Ret yy /\ 0 <= yy < 100 /\
    year d = (if yy <=? 50 then 2000 + yy else 1900 + yy).
Proof.
  unfold _get_maturity_date.
  destruct (PyStr.re_search_d6_end _) as [g |] eqn:Hsearch; [| discriminate].
  destruct (re_search_d6_end_spec _ _ Hsearch) as (_ & _ & _ & Hlen & Hdig & _).
  destruct g as [| c1 [| c2 [| c3 [| c4 [| c5 [| c6 [| c7 g]]]]]]]; try discriminate.
  cbn [PyStr.all_digits] in Hdig.
  repeat (apply andb_prop in Hdig as [?H Hdig]).
  change (String.substring 0 2 (String c1 (String c2 (String c3 (String c4 (String c5 (String c6 EmptyString)))))))
    with (String c1 (String c2 EmptyString)).
  change (String.substring 2 2 (String c1 (String c2 (String c3 (String c4 (String c5 (String c6 EmptyString)))))))
    with (String c3 (String c4 EmptyString)).
  change (String.substring 4 2 (String c1 (String c2 (String c3 (String c4 (String c5 (String c6 EmptyString)))))))
    with (String c5 (String c6 EmptyString)).
  destruct (int_two_digits c1 c2) as (dd & -> & Hdd); try assumption.
  destruct (int_two_digits c3 c4) as (mm & -> & Hmm); try assumption.
  destruct (int_two_digits c5 c6) as (yy & Hyy & Hyyr); try assumption.
  rewrite Hyy. cbn [bind]. unfold date_new.
  destruct (_ && _); cbn [bind try_except is_ValueError]; [| discriminate].
  intros [= <-]. eexists. exists yy. split; [reflexivity |]. split; [exact Hyy |].
  split; [exact Hyyr |]. cbn [year]. destruct (yy <=? 50); lia.
Qed.

Lemma century_rule_all :
  forallb century_rule_holds (map Z.of_nat (seq 0 100)) = true.
Proof. vm_compute. reflexivity. Qed.

(** C2: the three examples of the maturity parser, and the century rule: a
    two-digit year up to 50 lands in the 2000s, one above 50 in the 1900s,
    for every two-digit year after "LTN 0101" and in every date the parser
    returns. *)
Theorem C2_maturity_examples :
  _get_maturity_date "LTN 010123" = Some (mkdate 2023 1 1) /\
  _get_maturity_date "NTN-B Principal 150545" = Some (mkdate 2045 5 15) /\
  _get_maturity_date "LTN 311399" = None /\
  date_new 1999 13 31 = Raise (ValueError []) /\
  (forall n : Z, 0 <= n < 100 ->
     _get_maturity_date (String.append "LTN 0101" (two_digits n))
     = Some (mkdate (if n <=? 50 then 2000 + n else 1900 + n) 1 1)) /\
  (forall (asset_code : string) (d : date),
     _get_maturity_date asset_code = Some d ->
     exists g yy,
       PyStr.re_search_d6_end (PyStr.replace asset_code " " "") = Some g /\
       PyStr.int (String.substring 4 2 g) = Ret yy /\ 0 <= yy < 100 /\
       year d = (if yy <=? 50 then 2000 + yy else 1900 + yy)).
Proof.
  repeat split; try reflexivity; [| exact maturity_year_rule].
  intros n Hn.
  assert (Hin : In n (map Z.of_nat (seq 0 100))).
  { apply in_map_iff. exists (Z.to_nat n). split; [lia |].
    apply in_seq. lia. }
  pose proof (proj1 (forallb_forall _ _) century_rule_all n Hin) as H.
  unfold century_rule_holds in H.
  destruct (_get_maturity_date _) as [[y m d] |]; [| discriminate].
  simpl in H. apply andb_prop in H as [H Hd]. apply andb_prop in H as [Hy Hm].
  apply Z.eqb_eq in Hy, Hm, Hd. subst. reflexivity.
Qed.

Lemma C2_maturity_examples_witness :
  (0 <= 51 < 100 /\
   _get_maturity_date (String.append "LTN 0101" (two_digits 51))
   = Some (mkdate 1951 1 1)) /\
  (_get_maturity_date "NTN-F 010151" = Some (mkdate 1951 1 1) /\
   exists g yy,
     PyStr.re_search_d6_end (PyStr.replace "NTN-F 010151" " " "") = Some g /\
     PyStr.int (String.substring 4 2 g) = Ret yy /\ 0 <= yy < 100 /\
     year (mkdate 1951 1 1) = (if yy <=? 50 then 2000 + yy else 1900 + yy)).
Proof.
  pose proof C2_maturity_examples as (_ & _ & _ & _ & Hrule & Hyear).
  split.
  - assert (H : 0 <= 51 < 100) by lia.
    split; [exact H | exact (Hrule 51 H)].
  - assert (H : _get_maturity_date "NTN-F 010151" = Some (mkdate 1951 1 1))
      by reflexivity.
    split; [exact H | exact (Hyear _ _ H)].
Defined.

(** C3, as stated, fails: a code that ends in seven digits does not end in a
    run of exactly six, yet its last six digits are parsed as a date. *)
Lemma C3_seven_digits_still_parse :
  trailing_digits (strip_whitespace "LTN 1010123") <> 6%nat /\
  _get_maturity_date "LTN 1010123" = Some (mkdate 2023 1 1).
Proof. split; [vm_compute; discriminate | reflexivity]. Qed.

(** C3 (amended): when the code without its whitespace does not end in at
    least six digits, the parser returns none; a run of digits shorter than
    six always yields none, a longer run does not. *)
Theorem C3_short_digit_run_gives_none (asset_code : string) :
  (trailing_digits (strip_whitespace asset_code) < 6)%nat ->
  _get_maturity_date asset_code = None.
Proof.
  intros Hshort. unfold _get_maturity_date.
  destruct (PyStr.re_search_d6_end _) as [g |] eqn:E; [| reflexivity].
  apply search_gives_six_trailing_digits in E. lia.
Qed.

Lemma C3_short_digit_run_gives_none_witness :
  (trailing_digits (strip_whitespace "LTN 01012") < 6)%nat /\
  _get_maturity_date "LTN 01012" = None.
Proof.
  assert (H : (trailing_digits (strip_whitespace "LTN 01012") < 6)%nat)
    by (vm_compute; lia).
  split; [exact H |].
  exact (C3_short_digit_run_gives_none "LTN 01012" H).
Defined.

(* ===================================================================== *)
(** ** The catalog is handed out as a copy *)
(* ===================================================================== *)

Lemma list_copy_fresh (l : loc) (h : gmap loc (list string)) :
  h !! fst (list_copy l h) = None.
Proof. unfold list_copy. simpl. apply not_elem_of_dom, is_fresh. Qed.

Lemma class_catalog_mutate_other (r : loc) f (h : gmap loc (list string)) :
  r <> AVAILABLE_ASSETS_ref -> class_catalog (mutate r f h) = class_catalog h.
Proof.
  intros Hne. unfold class_catalog, mutate. now rewrite lookup_alter_ne.
Qed.

(** The pipeline reads the heap through [class_catalog] only. *)
Lemma get_treasury_data_method_catalog env (h h' : gmap loc (list string))
    self cy codes fy ly w :
  class_catalog h' = class_catalog h ->
  get_treasury_data_method env h' self cy codes fy ly w
  = get_treasury_data_method env h self cy codes fy ly w.
Proof. intros E. unfold get_treasury_data_method. now rewrite E. Qed.

(** C9: [get_available_assets], as a function of the module and as a method,
    returns a new list object holding the elements of the catalog; whatever
    is done to that object afterwards, the list bound to
    [TesouroDireto.AVAILABLE_ASSETS] keeps its elements, and
    [get_treasury_data] validates and fills in defaults exactly as before. *)
Theorem C9_available_assets_is_a_copy
    (h : gmap loc (list string)) (self : TesouroDireto) :
  is_Some (h !! AVAILABLE_ASSETS_ref) ->
  get_available_assets_method self h = get_available_assets h /\
  let (r, h1) := get_available_assets h in
  r <> AVAILABLE_ASSETS_ref /\
  h !! r = None /\
  h1 !! r = Some (class_catalog h) /\
  (forall l : loc, l <> r -> h1 !! l = h !! l) /\
  fst (get_available_assets h1) <> r /\
  forall f : list string -> list string,
    let h2 := mutate r f h1 in
    h2 !! AVAILABLE_ASSETS_ref = h !! AVAILABLE_ASSETS_ref /\
    class_catalog h2 = class_catalog h /\
    (forall env td cy codes fy ly w,
        get_treasury_data_method env h2 td cy codes fy ly w
        = get_treasury_data_method env h td cy codes fy ly w) /\
    (forall env cy codes fy ly dir w,
        get_treasury_data env h2 cy codes fy ly dir w
        = get_treasury_data env h cy codes fy ly dir w).
Proof.
  intros Hcat. split; [reflexivity |].
  unfold get_available_assets, list_copy.
  set (r := fresh (dom h)).
  assert (Hfresh : h !! r = None) by (apply not_elem_of_dom, is_fresh).
  assert (Hne : r <> AVAILABLE_ASSETS_ref).
  { intros E. rewrite E in Hfresh. rewrite Hfresh in Hcat. now destruct Hcat. }
  split; [exact Hne |]. split; [exact Hfresh |].
  split; [now rewrite lookup_insert_eq |].
  split; [intros l Hl; now rewrite lookup_insert_ne |].
  split.
  { simpl. intros E.
    pose proof (is_fresh (dom (<[r := default [] (h !! AVAILABLE_ASSETS_ref)]> h))) as Hf.
    rewrite E in Hf. apply Hf. rewrite dom_insert_L. set_solver. }
  intros f.
  set (h2 := mutate r f (<[r := default [] (h !! AVAILABLE_ASSETS_ref)]> h)).
  assert (Hsame : h2 !! AVAILABLE_ASSETS_ref = h !! AVAILABLE_ASSETS_ref).
  { subst h2. unfold mutate.
    rewrite lookup_alter_ne by exact Hne. now rewrite lookup_insert_ne. }
  assert (Hcatalog : class_catalog h2 = class_catalog h)
    by (unfold class_catalog; now rewrite Hsame).
  split; [exact Hsame |]. split; [exact Hcatalog |]. split.
  - intros. now apply get_treasury_data_method_catalog.
  - intros. unfold get_treasury_data. destruct (__init__ _ _ _).
    now apply get_treasury_data_method_catalog.
Qed.

Lemma C9_available_assets_is_a_copy_witness :
  is_Some (heap_at_import !! AVAILABLE_ASSETS_ref) /\
  class_catalog
    (mutate (fst (get_available_assets heap_at_import)) (fun _ => [])
            (snd (get_available_assets heap_at_import)))
  = AVAILABLE_ASSETS.
Proof.
  assert (H : is_Some (heap_at_import !! AVAILABLE_ASSETS_ref))
    by (exists AVAILABLE_ASSETS; reflexivity).
  split; [exact H |].
  pose proof (C9_available_assets_is_a_copy heap_at_import Demo.td H) as [_ Hcopy].
  destruct (get_available_assets heap_at_import) as [r h1].
  destruct Hcopy as (_ & _ & _ & _ & _ & Hmut).
  destruct (Hmut (fun _ => [])) as (_ & Hcat & _).
  exact Hcat.
Defined.

(* ===================================================================== *)
(** ** Validation comes first *)
(* ===================================================================== *)

Lemma filter_keeps {A} (p : A -> bool) (x : A) (l : list A) :
  In x l -> p x = true -> exists y rest, List.filter p l = y :: rest.
Proof.
  intros Hin Hp. assert (H : In x (List.filter p l)) by (apply filter_In; auto).
  destruct (List.filter p l) as [| y rest]; [contradiction | eauto].
Qed.

(** C6: when a requested code is not in the catalog, [get_treasury_data]
    raises [ValueError] listing the codes that are not; no request is sent
    and no file is written.  The method leaves the world as it was; the
    function of the module has only created the cache directory. *)
Theorem C6_invalid_code_fails_before_any_io
    env (h : gmap loc (list string)) self cy (asset_codes : list string)
    fy ly dir (w : World) (code : string) :
  In code asset_codes ->
  list_contains (class_catalog h) code = false ->
  exists invalid_codes,
    In code invalid_codes /\
    invalid_codes
    = List.filter (fun c => negb (list_contains (class_catalog h) c)) asset_codes /\
    get_treasury_data_method env h self cy (Some asset_codes) fy ly w
    = (Raise (ValueError invalid_codes), w) /\
    exists w',
      get_treasury_data env h cy (Some asset_codes) fy ly dir w
      = (Raise (ValueError invalid_codes), w') /\
      requests w' = requests w /\ files w' = files w.
Proof.
  intros Hin Hbad.
  set (bad := fun c => negb (list_contains (class_catalog h) c)).
  assert (Hc : bad code = true) by (unfold bad; now rewrite Hbad).
  exists (List.filter bad asset_codes).
  split; [apply filter_In; auto |]. split; [reflexivity |].
  destruct (filter_keeps bad code asset_codes Hin Hc) as (y & rest & E).
  assert (Hm : forall td w0,
             get_treasury_data_method env h td cy (Some asset_codes) fy ly w0
             = (Raise (ValueError (List.filter bad asset_codes)), w0)).
  { intros td w0. unfold get_treasury_data_method. fold bad. now rewrite E. }
  split; [apply Hm |].
  unfold get_treasury_data. destruct (__init__ env dir w) as [td w1] eqn:Ei.
  exists w1. split; [apply Hm |].
  unfold __init__ in Ei. injection Ei as _ <-. split; reflexivity.
Qed.

Lemma C6_invalid_code_fails_before_any_io_witness :
  fst (get_treasury_data Demo.env heap_at_import 2024
         (Some ["LTN"; "CDB"; "NTN-B Principal"]%string) 2020 (Some 2021) None
         Demo.empty_world)
  = Raise (ValueError ["CDB"; "NTN-B Principal"]%string).
Proof.
  assert (Hin : In "CDB"%string ["LTN"; "CDB"; "NTN-B Principal"]%string)
    by (simpl; tauto).
  assert (Hbad : list_contains (class_catalog heap_at_import) "CDB" = false)
    by reflexivity.
  destruct (C6_invalid_code_fails_before_any_io Demo.env heap_at_import Demo.td
              2024 ["LTN"; "CDB"; "NTN-B Principal"]%string 2020 (Some 2021) None
              Demo.empty_world "CDB"%string Hin Hbad)
    as (invalid & _ & Einv & _ & w' & Erun & _).
  rewrite Erun, Einv. reflexivity.
Defined.

(* ===================================================================== *)
(** ** An empty range of years *)
(* ===================================================================== *)

Lemma range_empty (first stop : Z) : stop <= first -> range first stop = [].
Proof.
  intros H. unfold range. replace (Z.to_nat (stop - first)) with 0%nat by lia.
  reflexivity.
Qed.

Lemma download_assets_no_years env self cy asset_codes all_files w :
  download_assets env self cy asset_codes [] all_files w = (Ret all_files, w).
Proof. induction asset_codes as [| c rest IH]; simpl; [reflexivity | exact IH]. Qed.

Lemma filter_all_valid (catalog asset_codes : list string) :
  (forall c, In c asset_codes -> list_contains catalog c = true) ->
  List.filter (fun c => negb (list_contains catalog c)) asset_codes = [].
Proof.
  induction asset_codes as [| c rest IH]; intros H; simpl; [reflexivity |].
  rewrite (H c) by (simpl; auto). simpl. apply IH. intros c' Hc'. apply H.
  simpl; auto.
Qed.

Lemma catalog_is_valid (catalog : list string) :
  forall c, In c catalog -> list_contains catalog c = true.
Proof.
  intros c Hc. unfold list_contains. apply existsb_exists. exists c.
  split; [exact Hc | apply String.eqb_refl].
Qed.

Lemma no_invalid_codes h asset_codes :
  codes_valid h asset_codes ->
  List.filter (fun c => negb (list_contains (class_catalog h) c))
              (requested_codes h asset_codes) = [].
Proof. intros H. now apply filter_all_valid. Qed.

(** C10: with valid codes and a first year, after clamping, above the last
    year, after defaulting, the range of years is empty: the call returns the
    empty table, sends no request and writes no file.  The method leaves the
    world untouched; the function of the module has only created the cache
    directory. *)
Theorem C10_empty_year_range
    env (h : gmap loc (list string)) self cy asset_codes fy ly dir (w : World) :
  codes_valid h asset_codes ->
  effective_last_year cy ly < effective_first_year fy ->
  range (effective_first_year fy) (effective_last_year cy ly + 1) = [] /\
  get_treasury_data_method env h self cy asset_codes fy ly w
  = (Ret DataFrame_new, w) /\
  exists w',
    get_treasury_data env h cy asset_codes fy ly dir w = (Ret DataFrame_new, w') /\
    requests w' = requests w /\ files w' = files w.
Proof.
  intros Hvalid Hrange.
  assert (Hyears : range (effective_first_year fy) (effective_last_year cy ly + 1) = [])
    by (apply range_empty; lia).
  assert (Hm : forall td w0,
             get_treasury_data_method env h td cy asset_codes fy ly w0
             = (Ret DataFrame_new, w0)).
  { intros td w0. unfold get_treasury_data_method.
    fold (requested_codes h asset_codes).
    rewrite (no_invalid_codes h asset_codes Hvalid).
    fold (effective_first_year fy). fold (effective_last_year cy ly).
    rewrite Hyears, download_assets_no_years. reflexivity. }
  split; [exact Hyears |]. split; [apply Hm |].
  unfold get_treasury_data. destruct (__init__ env dir w) as [td w1] eqn:Ei.
  exists w1. split; [apply Hm |].
  unfold __init__ in Ei. injection Ei as _ <-. split; reflexivity.
Qed.

Lemma C10_empty_year_range_witness :
  get_treasury_data_method Demo.env heap_at_import Demo.td 2024
    (Some ["LTN"; "NTN-F"]%string) 1999 (Some 2004) Demo.empty_world
  = (Ret DataFrame_new, Demo.empty_world).
Proof.
  assert (Hvalid : codes_valid heap_at_import (Some ["LTN"; "NTN-F"]%string)).
  { intros c Hc. simpl in Hc. destruct Hc as [<- | [<- | []]]; reflexivity. }
  assert (Hrange : effective_last_year 2024 (Some 2004) < effective_first_year 1999)
    by (vm_compute; reflexivity).
  exact (proj1 (proj2 (C10_empty_year_range Demo.env heap_at_import Demo.td 2024
                         (Some ["LTN"; "NTN-F"]%string) 1999 (Some 2004) None
                         Demo.empty_world Hvalid Hrange))).
Defined.

(* ===================================================================== *)
(** ** The file cache *)
(* ===================================================================== *)

Lemma file_exists_mkdir (p q : Path) (w : World) :
  file_exists (mkdir p w) q = file_exists w q.
Proof. reflexivity. Qed.

Lemma file_exists_write (p : Path) (data : bytes) (w : World) :
  file_exists (write_file p data w) p = true.
Proof. unfold file_exists, write_file. simpl. now rewrite lookup_insert_eq. Qed.

(** What a call does when it does not take the file from the cache. *)
Lemma _download_file_fetch env self cy asset_code year w :
  file_exists w (cache_path self asset_code year) && negb (year =? cy) = false ->
  _download_file env self cy asset_code year w
  = let w1 := mkdir (path_join (cache_dir self) (_normalize_asset_code asset_code)) w in
    let w2 := mkWorld (dirs w1) (files w1)
                (requests w ++ [download_url asset_code year]) in
    match http_success env (List.length (requests w)) (download_url asset_code year) with
    | Some r =>
        (Ret (Some (cache_path self asset_code year)),
         write_file (cache_path self asset_code year) (content r) w2)
    | None => (Ret None, w2)
    end.
Proof.
  intros Hmiss. unfold _download_file. cbv zeta.
  rewrite file_exists_mkdir.
  change (path_join (path_join (cache_dir self) (_normalize_asset_code asset_code))
                    (cache_filename asset_code year))
    with (cache_path self asset_code year).
  rewrite Hmiss. unfold http_get, http_success. simpl.
  destruct (session_get env _ _) as [r |]; simpl; [| reflexivity].
  unfold raise_for_status.
  destruct ((400 <=? status_code r) && (status_code r <? 600)); reflexivity.
Qed.

Lemma _download_file_hit env self cy asset_code year w :
  file_exists w (cache_path self asset_code year) && negb (year =? cy) = true ->
  _download_file env self cy asset_code year w
  = (Ret (Some (cache_path self asset_code year)),
     mkdir (path_join (cache_dir self) (_normalize_asset_code asset_code)) w).
Proof.
  intros Hhit. unfold _download_file. cbv zeta.
  rewrite file_exists_mkdir.
  change (path_join (path_join (cache_dir self) (_normalize_asset_code asset_code))
                    (cache_filename asset_code year))
    with (cache_path self asset_code year).
  now rewrite Hhit.
Qed.

(** A call never raises, and when it returns a path the file is there. *)
Lemma _download_file_result env self cy asset_code year w :
  exists r w', _download_file env self cy asset_code year w = (Ret r, w') /\
    (forall p, r = Some p ->
       p = cache_path self asset_code year /\ file_exists w' p = true).
Proof.
  destruct (file_exists w (cache_path self asset_code year) && negb (year =? cy)) eqn:E.
  - rewrite (_download_file_hit _ _ _ _ _ _ E). eexists _, _. split; [reflexivity |].
    intros p [= <-]. split; [reflexivity |]. rewrite file_exists_mkdir.
    now apply andb_prop in E as [E _].
  - rewrite (_download_file_fetch _ _ _ _ _ _ E). cbv zeta.
    destruct (http_success _ _ _) as [r |]; eexists _, _; (split; [reflexivity |]).
    + intros p [= <-]. split; [reflexivity | apply file_exists_write].
    + intros p [=].
Qed.

(** C4, as stated, fails in its second sentence: a fetch that fails stores
    nothing, so the second request for the pair sends a GET again, although
    the year is below the current one. *)
Lemma C4_failed_fetch_is_not_cached :
  let first := _download_file Demo.offline Demo.td 2024 "LTN" 2020 Demo.empty_world in
  let second := _download_file Demo.offline Demo.td 2024 "LTN" 2020 (snd first) in
  2020 < 2024 /\
  fst first = Ret None /\
  requests (snd first) = [download_url "LTN" 2020] /\
  requests (snd second) = [download_url "LTN" 2020; download_url "LTN" 2020].
Proof. cbv zeta. repeat split; vm_compute; reflexivity. Qed.

(** C4 (amended): if the cache file of the pair exists and the year is not
    the current year, [_download_file] returns its path and sends no request;
    otherwise it sends one GET and, when the answer is a success, writes the
    whole body to the cache path and returns it (on a failure it returns none
    and writes nothing).  Consequently, once a request for the pair has
    returned a path, a later request for the same pair with a year other than
    the current year sends no further request, while a request for the
    current year sends a GET on every call. *)
Theorem C4_cache_policy env self (asset_code : string) (year : Z) :
  let local_file := cache_path self asset_code year in
  let url := download_url asset_code year in
  (forall cy w,
      file_exists w local_file = true -> year <> cy ->
      exists w', _download_file env self cy asset_code year w
                 = (Ret (Some local_file), w') /\
                 requests w' = requests w /\ files w' = files w) /\
  (forall cy w,
      file_exists w local_file = false \/ year = cy ->
      exists r w', _download_file env self cy asset_code year w = (Ret r, w') /\
        requests w' = requests w ++ [url] /\
        match http_success env (List.length (requests w)) url with
        | Some response =>
            r = Some local_file /\
            files w' = <[local_file := content response]> (files w)
        | None => r = None /\ files w' = files w
        end) /\
  (forall cy1 cy2 w p w1,
      _download_file env self cy1 asset_code year w = (Ret (Some p), w1) ->
      year <> cy2 ->
      exists w2, _download_file env self cy2 asset_code year w1
                 = (Ret (Some p), w2) /\
                 requests w2 = requests w1 /\ files w2 = files w1) /\
  (forall w,
      requests (snd (_download_file env self year asset_code year w))
      = requests w ++ [url]).
Proof.
  intros local_file url.
  assert (Hhit : forall cy w,
             file_exists w local_file = true -> year <> cy ->
             exists w', _download_file env self cy asset_code year w
                        = (Ret (Some local_file), w') /\
                        requests w' = requests w /\ files w' = files w).
  { intros cy w Hex Hne. eexists. split.
    - apply _download_file_hit. fold local_file. rewrite Hex. simpl.
      apply negb_true_iff, Z.eqb_neq, Hne.
    - split; reflexivity. }
  assert (Hfetch : forall cy w,
             file_exists w local_file = false \/ year = cy ->
             exists r w', _download_file env self cy asset_code year w = (Ret r, w') /\
               requests w' = requests w ++ [url] /\
               match http_success env (List.length (requests w)) url with
               | Some response =>
                   r = Some local_file /\
                   files w' = <[local_file := content response]> (files w)
               | None => r = None /\ files w' = files w
               end).
  { intros cy w Hmiss.
    rewrite _download_file_fetch.
    - cbv zeta. fold url local_file.
      destruct (http_success env _ url) as [r |]; eexists _, _;
        (split; [reflexivity |]); simpl; auto.
    - fold local_file. destruct Hmiss as [-> | ->]; [reflexivity |].
      rewrite Z.eqb_refl. apply andb_false_r. }
  split; [exact Hhit |]. split; [exact Hfetch |]. split.
  - intros cy1 cy2 w p w1 Hfirst Hne.
    destruct (_download_file_result env self cy1 asset_code year w)
      as (r & w' & E & Hfile).
    rewrite E in Hfirst. injection Hfirst as -> ->.
    destruct (Hfile p eq_refl) as [-> Hex].
    exact (Hhit cy2 w1 Hex Hne).
  - intros w. destruct (Hfetch year w (or_intror eq_refl)) as (r & w' & -> & Hreq & _).
    exact Hreq.
Qed.

Lemma C4_cache_policy_witness :
  let local_file := cache_path Demo.td "LTN" 2020 in
  let cached := write_file local_file [Byte.x02] Demo.empty_world in
  (file_exists cached local_file = true /\ 2020 <> 2024 /\
   exists w', _download_file Demo.env Demo.td 2024 "LTN" 2020 cached
              = (Ret (Some local_file), w') /\
              requests w' = [] /\ files w' = files cached) /\
  ((file_exists Demo.empty_world local_file = false \/ 2020 = 2024) /\
   exists r w', _download_file Demo.env Demo.td 2024 "LTN" 2020 Demo.empty_world
                = (Ret r, w') /\
                requests w' = [download_url "LTN" 2020]) /\
  (exists p w1, _download_file Demo.env Demo.td 2024 "LTN" 2020 Demo.empty_world
                = (Ret (Some p), w1) /\
                exists w2, _download_file Demo.env Demo.td 2025 "LTN" 2020 w1
                           = (Ret (Some p), w2) /\
                           requests w2 = requests w1).
Proof.
  cbv zeta.
  set (local_file := cache_path Demo.td "LTN" 2020).
  set (cached := write_file local_file [Byte.x02] Demo.empty_world).
  pose proof (C4_cache_policy Demo.env Demo.td "LTN" 2020) as (Hhit & Hfetch & Hagain & _).
  split; [| split].
  - assert (Hex : file_exists cached local_file = true) by (vm_compute; reflexivity).
    assert (Hne : 2020 <> 2024) by lia.
    split; [exact Hex |]. split; [exact Hne |].
    destruct (Hhit 2024 cached Hex Hne) as (w' & E & Hreq & Hfiles).
    exists w'. split; [exact E |]. split; [exact Hreq | exact Hfiles].
  - assert (Hmiss : file_exists Demo.empty_world local_file = false \/ 2020 = 2024)
      by (left; vm_compute; reflexivity).
    split; [exact Hmiss |].
    destruct (Hfetch 2024 Demo.empty_world Hmiss) as (r & w' & E & Hreq & _).
    exists r, w'. split; [exact E | exact Hreq].
  - assert (Hne : 2020 <> 2025) by lia.
    assert (Hfirst : exists w1,
               _download_file Demo.env Demo.td 2024 "LTN" 2020 Demo.empty_world
               = (Ret (Some local_file), w1))
      by (eexists; vm_compute; reflexivity).
    destruct Hfirst as (w1 & Hfirst). exists local_file, w1.
    split; [exact Hfirst |].
    destruct (Hagain 2024 2025 Demo.empty_world local_file w1 Hfirst Hne)
      as (w2 & Hsecond & Hreq & _).
    exists w2. split; [exact Hsecond | exact Hreq].
Defined.

(* ===================================================================== *)
(** ** Cleaning a sheet *)
(* ===================================================================== *)

Lemma combine_map_r {A B} (g : A -> B) (l : list A) :
  combine l (map g l) = map (fun a => (a, g a)) l.
Proof. induction l as [| a l IH]; simpl; [reflexivity | now rewrite IH]. Qed.

(** Overwriting an existing column with a function of its old values. *)
Lemma set_column_map (name : string) (i : nat) (g : cell -> cell) (df : DataFrame) :
  col_index name (columns df) = Some i ->
  set_column name (map g (column name df)) df
  = mkDataFrame (columns df)
      (map (fun r => set_nth i (g (nth i r CNull)) r) (rows df)).
Proof.
  intros Hi. unfold set_column, column, get. rewrite Hi. f_equal.
  rewrite map_map, combine_map_r, map_map. reflexivity.
Qed.

(** Adding a new last column computed row by row. *)
Lemma set_column_new (name : string) (g : row -> cell) (df : DataFrame) :
  col_index name (columns df) = None ->
  set_column name (map g (rows df)) df
  = mkDataFrame (columns df ++ [name]) (map (fun r => r ++ [g r]) (rows df)).
Proof.
  intros Hi. unfold set_column. rewrite Hi. f_equal.
  rewrite combine_map_r, map_map. reflexivity.
Qed.

Lemma df_empty_false (df : DataFrame) :
  df_empty df = false <-> columns df <> [] /\ rows df <> [].
Proof.
  unfold df_empty. split.
  - intros H. apply orb_false_elim in H as [H1 H2].
    apply Nat.eqb_neq in H1, H2.
    split; intros E; rewrite E in *; simpl in *; lia.
  - intros [H1 H2]. destruct (columns df), (rows df); try congruence; reflexivity.
Qed.

Lemma to_numeric_column_clean env (col : string) (i : nat) (rs : list row) :
  col_index col CLEAN_COLUMNS = Some i ->
  to_numeric_column env col (mkDataFrame CLEAN_COLUMNS rs)
  = mkDataFrame CLEAN_COLUMNS
      (map (fun r => set_nth i (CNum (to_numeric env (nth i r CNull))) r) rs).
Proof.
  intros Hi. unfold to_numeric_column.
  exact (set_column_map col i (fun c => CNum (to_numeric env c))
           (mkDataFrame CLEAN_COLUMNS rs) Hi).
Qed.

Lemma to_datetime_column_clean env (rs : list row) :
  to_datetime_column env "ref_date" (mkDataFrame CLEAN_COLUMNS rs)
  = mkDataFrame CLEAN_COLUMNS
      (map (fun r => set_nth 0
                       match to_datetime env (nth 0 r CNull) with
                       | Some t => CTime t
                       | None => CNull
                       end r) rs).
Proof.
  unfold to_datetime_column.
  exact (set_column_map "ref_date" 0
           (fun c => match to_datetime env c with Some t => CTime t | None => CNull end)
           (mkDataFrame CLEAN_COLUMNS rs) eq_refl).
Qed.

Lemma filter_filter {A} (p q : A -> bool) (l : list A) :
  List.filter p (List.filter q l) = List.filter (fun x => q x && p x) l.
Proof.
  induction l as [| x l IH]; simpl; [reflexivity |].
  destruct (q x); simpl; [destruct (p x) |]; now rewrite IH.
Qed.

(** [_clean_data] on a table that is not empty. *)
Lemma _clean_data_nonempty (env : Env) (df : DataFrame) :
  df_empty df = false ->
  _clean_data env df
  = if (5 <=? List.length (columns df))%nat
    then Ret (mkDataFrame CLEAN_COLUMNS
                (List.filter row_kept (map (coerce_row env) (rows df))))
    else Raise IndexError.
Proof.
  intros Hne. unfold _clean_data. rewrite Hne. unfold iloc_columns.
  destruct df as [cols rs]. simpl columns. simpl rows.
  destruct cols as [| c0 [| c1 [| c2 [| c3 [| c4 cs]]]]]; try reflexivity.
  replace (forallb _ _) with true by reflexivity.
  replace (5 <=? _)%nat with true by reflexivity.
  cbn [bind]. unfold set_columns. cbn [columns rows map List.length Nat.eqb CLEAN_COLUMNS].
  cbn [bind fold_left].
  rewrite (to_numeric_column_clean env "yield_bid" 1) by reflexivity.
  rewrite (to_numeric_column_clean env "yield_ask" 2) by reflexivity.
  rewrite (to_numeric_column_clean env "price_bid" 3) by reflexivity.
  rewrite (to_numeric_column_clean env "price_ask" 4) by reflexivity.
  rewrite to_datetime_column_clean.
  unfold select_rows, dropna. cbn [columns rows].
  rewrite filter_filter, !map_map. do 2 f_equal.
Qed.

Lemma row_kept_is_clean (a b c d e : cell) :
  row_kept [a; b; c; d; e] = true -> row_is_clean CLEAN_COLUMNS [a; b; c; d; e].
Proof.
  unfold row_kept. intros H. apply andb_prop in H as [Hna Hnz].
  simpl in Hna. repeat (apply andb_prop in Hna as [?%negb_true_iff Hna]).
  split; [| exact Hnz].
  intros name Hname. unfold CLEAN_COLUMNS in Hname. simpl in Hname.
  repeat (destruct Hname as [<- | Hname]; [assumption |]). contradiction.
Qed.

Lemma row_fails_not_kept env (r : row) :
  row_fails env r -> row_kept (coerce_row env r) = false.
Proof.
  unfold row_fails, row_kept, coerce_row.
  intros [Hd | [(i & Hi & Hn) | Hz]].
  - rewrite Hd. reflexivity.
  - apply andb_false_iff. left. simpl.
    assert (Hcases : i = 1%nat \/ i = 2%nat \/ i = 3%nat \/ i = 4%nat) by lia.
    destruct Hcases as [-> | [-> | [-> | ->]]]; rewrite Hn; simpl;
      repeat (destruct (negb _); simpl; try reflexivity).
  - apply andb_false_iff. right. exact Hz.
Qed.

(** C5: every row of the table [_clean_data] returns has a value in each of
    [ref_date], [yield_bid], [yield_ask], [price_bid], [price_ask], and a bid
    price other than zero.  The rows returned are the converted rows of the
    sheet that pass that test, so a row with a cell that does not convert is
    dropped.  The table given is one read from a sheet: without columns it
    has no rows. *)
Theorem C5_cleaned_rows env (df out : DataFrame) :
  (columns df = [] -> rows df = []) ->
  _clean_data env df = Ret out ->
  Forall (row_is_clean (columns out)) (rows out) /\
  (rows df <> [] ->
     columns out = CLEAN_COLUMNS /\
     rows out = List.filter row_kept (map (coerce_row env) (rows df))) /\
  (forall r, In r (rows df) -> row_fails env r ->
             ~ In (coerce_row env r) (rows out)).
Proof.
  intros Hcols Hrun.
  destruct (df_empty df) eqn:Hemp.
  - unfold _clean_data in Hrun. rewrite Hemp in Hrun. injection Hrun as <-.
    assert (Hrows : rows df = []).
    { unfold df_empty in Hemp. apply orb_prop in Hemp as [H | H];
        apply Nat.eqb_eq in H.
      - apply Hcols. now destruct (columns df).
      - now destruct (rows df). }
    rewrite Hrows. split; [constructor |]. split; [congruence |].
    intros r [].
  - rewrite (_clean_data_nonempty env df Hemp) in Hrun.
    destruct (5 <=? _)%nat; [| discriminate]. injection Hrun as <-.
    cbn [columns rows].
    assert (Hclean : forall r', In r' (List.filter row_kept (map (coerce_row env) (rows df)))
                                -> row_kept r' = true /\ row_is_clean CLEAN_COLUMNS r').
    { intros r' Hin. apply filter_In in Hin as [Hin Hkept].
      split; [exact Hkept |].
      apply in_map_iff in Hin as (r & <- & _). now apply row_kept_is_clean. }
    split; [apply List.Forall_forall; intros r' Hin; now apply Hclean |].
    split; [intros _; split; reflexivity |].
    intros r Hin Hfail Hout. apply Hclean in Hout as [Hkept _].
    rewrite (row_fails_not_kept env r Hfail) in Hkept. discriminate.
Qed.

Lemma C5_cleaned_rows_witness :
  exists out,
    (columns (Demo.sheet "LTN 010125") = [] -> rows (Demo.sheet "LTN 010125") = []) /\
    _clean_data Demo.env (Demo.sheet "LTN 010125") = Ret out /\
    List.length (rows (Demo.sheet "LTN 010125")) = 5%nat /\
    List.length (rows out) = 2%nat /\
    Forall (row_is_clean (columns out)) (rows out) /\
    columns out = CLEAN_COLUMNS /\
    ~ In (coerce_row Demo.env
            [CStr "02/01/2020"; CStr "n/d"; Demo.num 6; Demo.num 901; Demo.num 900;
             Demo.num 900]) (rows out).
Proof.
  eexists.
  assert (Hcols : columns (Demo.sheet "LTN 010125") = []
                  -> rows (Demo.sheet "LTN 010125") = [])
    by (vm_compute; discriminate).
  split; [exact Hcols |]. split; [vm_compute; reflexivity |].
  split; [reflexivity |]. split; [reflexivity |].
  pose proof (C5_cleaned_rows Demo.env (Demo.sheet "LTN 010125") _ Hcols
                ltac:(vm_compute; reflexivity)) as (Hclean & Hrows & Hdrop).
  split; [exact Hclean |]. split.
  - apply Hrows. vm_compute. discriminate.
  - apply Hdrop.
    + vm_compute. tauto.
    + right. left. exists 1%nat. split; [lia | reflexivity].
Defined.

(* ===================================================================== *)
(** ** Sorting the consolidated table *)
(* ===================================================================== *)

Section Sorting.

Variable cols : list string.

Lemma key_le_total (k1 k2 : cell * cell) :
  key_le k1 k2 = false -> key_le k2 k1 = true.
Proof.
  destruct k1 as [[| | a1 | |] [| | | t1 |]], k2 as [[| | a2 | |] [| | | t2 |]];
    simpl; try discriminate.
  rewrite (String.compare_antisym a1 a2).
  destruct (String.compare a2 a1); simpl; try discriminate; try reflexivity.
  intros H. apply Z.leb_gt in H. apply Z.leb_le. lia.
Qed.

Lemma insert_row_In (r x : row) (l : list row) :
  In x (insert_row cols r l) -> x = r \/ In x l.
Proof.
  induction l as [| r' rest IH]; cbn [insert_row].
  - intros [<- | []]. now left.
  - destruct (key_le (sort_key cols r) (sort_key cols r')); cbn [In].
    + intros [<- | H]; auto.
    + intros [<- | H]; auto. destruct (IH H); auto.
Qed.

Lemma sort_rows_In (x : row) (l : list row) :
  In x (sort_rows cols l) -> In x l.
Proof.
  induction l as [| r rest IH]; cbn [sort_rows In]; [auto |].
  intros H. apply insert_row_In in H as [-> | H]; auto.
Qed.

Lemma insert_row_HdRel (a r : row) (l : list row) :
  HdRel (rows_in_order cols) a l -> (rows_in_order cols) a r -> HdRel (rows_in_order cols) a (insert_row cols r l).
Proof.
  intros Hl Har. destruct l as [| r' rest]; cbn [insert_row].
  - now constructor.
  - destruct (key_le (sort_key cols r) (sort_key cols r')); constructor;
      [exact Har |].
    now inversion Hl.
Qed.

Lemma insert_row_Sorted (r : row) (l : list row) :
  Sorted (rows_in_order cols) l -> Sorted (rows_in_order cols) (insert_row cols r l).
Proof.
  induction l as [| r' rest IH]; cbn [insert_row]; intros Hs.
  - repeat constructor.
  - destruct (key_le (sort_key cols r) (sort_key cols r')) eqn:E.
    + constructor; [exact Hs | now constructor].
    + inversion Hs as [| ? ? Hrest Hhd]; subst.
      constructor; [now apply IH |].
      apply insert_row_HdRel; [exact Hhd |].
      now apply key_le_total.
Qed.

Lemma sort_rows_Sorted (l : list row) : Sorted (rows_in_order cols) (sort_rows cols l).
Proof.
  induction l as [| r rest IH]; cbn [sort_rows]; [constructor |].
  now apply insert_row_Sorted.
Qed.

Lemma Sorted_adjacent (l : list row) (i : nat) (r1 r2 : row) :
  Sorted (rows_in_order cols) l ->
  nth_error l i = Some r1 -> nth_error l (S i) = Some r2 -> (rows_in_order cols) r1 r2.
Proof.
  intros Hs. revert i. induction Hs as [| a l Hs IH Hhd]; intros i H1 H2.
  - destruct i; discriminate.
  - destruct i as [| i]; simpl in H1, H2.
    + injection H1 as <-. destruct l as [| b l']; [discriminate |].
      simpl in H2. injection H2 as <-. now inversion Hhd.
    + exact (IH i H1 H2).
Qed.

(** On keys made of a string and a timestamp, [key_le] is the order of
    the description. *)
Lemma key_le_row_before (r1 r2 : row) :
  key_typed (sort_key cols r1) = true ->
  key_typed (sort_key cols r2) = true ->
  (rows_in_order cols) r1 r2 -> row_before cols r1 r2.
Proof.
  unfold rows_in_order, row_before, sort_key.
  destruct (get cols "asset_code" r1) as [| | a1 | |]; try discriminate.
  destruct (get cols "ref_date" r1) as [| | | t1 |]; try discriminate.
  destruct (get cols "asset_code" r2) as [| | a2 | |]; try discriminate.
  destruct (get cols "ref_date" r2) as [| | | t2 |]; try discriminate.
  intros _ _ Hle. exists a1, t1, a2, t2. repeat (split; [reflexivity |]).
  simpl in Hle. unfold String.ltb.
  destruct (String.compare a1 a2) eqn:E; [| now left | discriminate].
  right. split; [now apply String.compare_eq_iff | now apply Z.leb_le].
Qed.

End Sorting.

(** What [sort_values] returns is in the order of the description. *)
Lemma sort_values_sorted (df out : DataFrame) :
  sort_values df = Ret out -> sorted_by_code_and_date out.
Proof.
  unfold sort_values. destruct (forallb _ _) eqn:Htyped; [| discriminate].
  intros [= <-]. intros i r1 r2 H1 H2. cbn [columns rows] in *.
  pose proof (proj1 (forallb_forall _ _) Htyped) as Hall.
  apply key_le_row_before.
  - apply Hall. eapply sort_rows_In, nth_error_In, H1.
  - apply Hall. eapply sort_rows_In, nth_error_In, H2.
  - exact (Sorted_adjacent (columns df) _ i r1 r2 (sort_rows_Sorted _ _) H1 H2).
Qed.

(* ===================================================================== *)
(** ** Tables built along the pipeline *)
(* ===================================================================== *)

Lemma set_column_rows (name : string) (i : nat) (g : row -> cell)
    (cols : list string) (rs : list row) :
  col_index name cols = Some i ->
  set_column name (map g rs) (mkDataFrame cols rs)
  = mkDataFrame cols (map (fun r => set_nth i (g r) r) rs).
Proof.
  intros Hi. unfold set_column. cbn [columns rows]. rewrite Hi. f_equal.
  rewrite combine_map_r, map_map. reflexivity.
Qed.

Lemma set_column_new_rows (name : string) (g : row -> cell)
    (cols : list string) (rs : list row) :
  col_index name cols = None ->
  set_column name (map g rs) (mkDataFrame cols rs)
  = mkDataFrame (cols ++ [name]) (map (fun r => r ++ [g r]) rs).
Proof. intros Hi. exact (set_column_new name g (mkDataFrame cols rs) Hi). Qed.

Lemma kept_row_shape env (r : row) :
  row_kept (coerce_row env r) = true ->
  exists t a b c d, coerce_row env r = [CTime t; CNum a; CNum b; CNum c; CNum d].
Proof.
  unfold row_kept, coerce_row.
  destruct (to_datetime env (nth 0 r CNull)) as [t |]; [| discriminate]. eauto 6.
Qed.

Lemma filter_nonempty_rows (df : DataFrame) :
  df_empty df = false -> rows df <> [].
Proof. intros H. now apply df_empty_false in H. Qed.

Lemma file_table_not_empty (df : DataFrame) : file_table df -> df_empty df = false.
Proof.
  intros (Hc & Hr & _). apply df_empty_false. split; [| exact Hr].
  rewrite Hc. discriminate.
Qed.

(** One sheet with usable rows, tagged with its name. *)
Lemma tagged_sheet_is_file_table env (raw : DataFrame) (sheet_name : string) :
  let cleaned := mkDataFrame CLEAN_COLUMNS
                   (List.filter row_kept (map (coerce_row env) (rows raw))) in
  df_empty cleaned = false ->
  file_table (set_column "asset_code" (map (fun _ => CStr sheet_name) (rows cleaned))
                cleaned).
Proof.
  intros cleaned Hne.
  rewrite (set_column_new "asset_code" (fun _ => CStr sheet_name) cleaned eq_refl).
  apply filter_nonempty_rows in Hne. subst cleaned. cbn [columns rows] in *.
  split; [reflexivity |]. cbn [columns rows]. split.
  - destruct (List.filter row_kept _); [congruence | discriminate].
  - apply List.Forall_forall. intros r' Hin.
    apply in_map_iff in Hin as (r & <- & Hin).
    apply filter_In in Hin as [Hin Hkept].
    apply in_map_iff in Hin as (r0 & <- & _).
    destruct (kept_row_shape env r0 Hkept) as (t & a & b & c & d & ->).
    exists t, a, b, c, d, sheet_name. reflexivity.
Qed.

Lemma read_sheets_file_tables env (data : bytes) (sheet_names : list string) :
  forall all_data out,
    Forall file_table all_data ->
    read_sheets env data sheet_names all_data = Ret out ->
    Forall file_table out.
Proof.
  induction sheet_names as [| sheet_name rest IH]; intros all_data out Hacc Hrun.
  - injection Hrun as <-. exact Hacc.
  - cbn [read_sheets] in Hrun.
    destruct (read_excel env data sheet_name) as [df | e]; [| discriminate].
    cbn [bind] in Hrun.
    destruct (df_empty df) eqn:Hemp; cbn [negb] in Hrun; [exact (IH _ _ Hacc Hrun) |].
    rewrite (_clean_data_nonempty env df Hemp) in Hrun.
    destruct (5 <=? _)%nat; [| discriminate]. cbn [bind] in Hrun.
    destruct (df_empty (mkDataFrame CLEAN_COLUMNS _)) eqn:Hemp2; cbn [negb] in Hrun;
      [exact (IH _ _ Hacc Hrun) |].
    refine (IH _ _ _ Hrun). apply Forall_app. split; [exact Hacc |].
    constructor; [| constructor].
    exact (tagged_sheet_is_file_table env df sheet_name Hemp2).
Qed.

Lemma reread_tagged_row (r : row) :
  tagged_row r -> map (fun name => get FILE_COLUMNS name r) FILE_COLUMNS = r.
Proof. intros (t & a & b & c & d & s & ->). reflexivity. Qed.

Lemma union_labels_file_tables (frames : list DataFrame) :
  Forall file_table frames ->
  fold_left (fun acc df => union_labels acc (columns df)) frames FILE_COLUMNS
  = FILE_COLUMNS.
Proof.
  induction 1 as [| df frames (Hc & _) _ IH]; [reflexivity |].
  cbn [fold_left]. rewrite Hc. exact IH.
Qed.

Lemma reread_file_tables (frames : list DataFrame) :
  Forall file_table frames ->
  flat_map (fun df => map (fun r => map (fun name => get (columns df) name r) FILE_COLUMNS)
                          (rows df)) frames
  = flat_map rows frames.
Proof.
  induction 1 as [| df frames (Hc & _ & Hrows) _ IH]; [reflexivity |].
  cbn [flat_map]. rewrite IH, Hc. f_equal.
  rewrite <- (map_id (rows df)) at 2. apply map_ext_in.
  intros r Hin. apply reread_tagged_row.
  exact (proj1 (List.Forall_forall _ _) Hrows r Hin).
Qed.

Lemma flat_map_rows_tagged (frames : list DataFrame) :
  Forall file_table frames -> Forall tagged_row (flat_map rows frames).
Proof.
  induction 1 as [| df frames (_ & _ & Hrows) _ IH]; [constructor |].
  cbn [flat_map]. apply Forall_app. now split.
Qed.

(** Concatenating file tables keeps their labels and puts their rows one
    after the other. *)
Lemma pd_concat_file_tables (df : DataFrame) (frames : list DataFrame) :
  Forall file_table (df :: frames) ->
  pd_concat (df :: frames) = mkDataFrame FILE_COLUMNS (flat_map rows (df :: frames)) /\
  file_table (pd_concat (df :: frames)).
Proof.
  intros Hall.
  assert (E : pd_concat (df :: frames)
              = mkDataFrame FILE_COLUMNS (flat_map rows (df :: frames))).
  { unfold pd_concat.
    assert (Hlabels : fold_left (fun acc d => union_labels acc (columns d))
                        (df :: frames) [] = FILE_COLUMNS).
    { cbn [fold_left]. inversion Hall as [| ? ? (Hc & _) Hrest]; subst.
      rewrite Hc. exact (union_labels_file_tables frames Hrest). }
    rewrite Hlabels. f_equal. exact (reread_file_tables _ Hall). }
  split; [exact E |]. rewrite E. split; [reflexivity |]. cbn [columns rows]. split.
  - inversion Hall as [| ? ? (_ & Hr & _) _]; subst. cbn [flat_map].
    destruct (rows df); [congruence | discriminate].
  - exact (flat_map_rows_tagged _ Hall).
Qed.

(** [_read_excel_file] never raises: it returns the empty table or a file
    table. *)
Lemma _read_excel_file_result env (w : World) (file_path : Path) :
  exists df, _read_excel_file env w file_path = Ret df /\
             (df = DataFrame_new \/ file_table df).
Proof.
  unfold _read_excel_file, try_except.
  destruct (read_excel_body env w file_path) as [df | e] eqn:Hbody; eauto.
  exists df. split; [reflexivity |].
  unfold read_excel_body in Hbody.
  destruct (open_file w file_path) as [data |]; [| discriminate]. cbn [bind] in Hbody.
  destruct (excel_sheet_names env data) as [names |]; [| discriminate].
  cbn [bind] in Hbody.
  destruct (read_sheets env data names []) as [all_data |] eqn:Hsheets; [| discriminate].
  cbn [bind] in Hbody.
  pose proof (read_sheets_file_tables env data names [] all_data
                (List.Forall_nil file_table) Hsheets)
    as Hall.
  destruct all_data as [| d ds]; injection Hbody as <-; [now left | right].
  exact (proj2 (pd_concat_file_tables d ds Hall)).
Qed.

Lemma read_files_file_tables env (w : World) (all_files : list Path) :
  forall all_data,
    Forall file_table all_data ->
    exists out, read_files env w all_files all_data = Ret out /\ Forall file_table out.
Proof.
  induction all_files as [| file_path rest IH]; intros all_data Hacc.
  - exists all_data. split; [reflexivity | exact Hacc].
  - cbn [read_files].
    destruct (_read_excel_file_result env w file_path) as (df & -> & [-> | Hdf]).
    + cbn [bind]. exact (IH all_data Hacc).
    + cbn [bind]. rewrite (file_table_not_empty df Hdf). cbn [negb].
      apply IH. apply Forall_app. split; [exact Hacc | now constructor].
Qed.

Lemma apply_str_tagged (f : string -> cell) (rs : list row) :
  Forall tagged_row rs ->
  apply_str f (map (get FILE_COLUMNS "asset_code") rs)
  = Ret (map (fun r => match nth 5 r CNull with CStr s => f s | _ => CNull end) rs).
Proof.
  induction 1 as [| r rs (t & a & b & c & d & s & ->) _ IH]; [reflexivity |].
  cbn [map]. change (get FILE_COLUMNS "asset_code" [CTime t; CNum a; CNum b; CNum c; CNum d; CStr s])
    with (CStr s).
  cbn [apply_str]. rewrite IH. reflexivity.
Qed.

Lemma denormalized_rows_tagged (rs : list row) :
  Forall tagged_row rs ->
  Forall tagged_row
    (map (fun r => set_nth 5
                     match nth 5 r CNull with
                     | CStr s => CStr (_denormalize_asset_code s)
                     | _ => CNull
                     end r) rs).
Proof.
  intros H. apply List.Forall_forall. intros r' Hin.
  apply in_map_iff in Hin as (r & <- & Hin).
  destruct (proj1 (List.Forall_forall _ _) H r Hin) as (t & a & b & c & d & s & ->).
  exists t, a, b, c, d, (_denormalize_asset_code s). reflexivity.
Qed.

Lemma finalize_rows_typed (rs : list row) :
  Forall tagged_row rs ->
  forallb (fun r => key_typed (sort_key OUTPUT_COLUMNS r)) (map finalize_row rs) = true.
Proof.
  induction 1 as [| r rs (t & a & b & c & d & s & ->) _ IH]; [reflexivity |].
  cbn [map forallb]. rewrite IH. reflexivity.
Qed.

(** The consolidation of file tables never raises, and what it returns. *)
Lemma consolidate_file_tables (df : DataFrame) (frames : list DataFrame) :
  Forall file_table (df :: frames) ->
  consolidate (df :: frames)
  = Ret (mkDataFrame OUTPUT_COLUMNS
           (sort_rows OUTPUT_COLUMNS (map finalize_row (flat_map rows (df :: frames))))).
Proof.
  intros Hall. unfold consolidate.
  rewrite (proj1 (pd_concat_file_tables df frames Hall)).
  pose proof (flat_map_rows_tagged _ Hall) as Htag.
  set (rs := flat_map rows (df :: frames)) in *.
  unfold column at 1. cbn [columns rows].
  rewrite (apply_str_tagged _ rs Htag). cbn [bind].
  rewrite (set_column_rows "asset_code" 5 _ FILE_COLUMNS rs eq_refl).
  unfold column. cbn [columns rows].
  rewrite (apply_str_tagged _ _ (denormalized_rows_tagged rs Htag)). cbn [bind].
  rewrite (set_column_new_rows "maturity_date" _ FILE_COLUMNS _ eq_refl).
  rewrite !map_map.
  match goal with
  | |- sort_values (mkDataFrame _ (map ?F rs)) = _ =>
      assert (Hrows : map F rs = map finalize_row rs)
  end.
  { apply map_ext_in. intros r Hin.
    destruct (proj1 (List.Forall_forall _ _) Htag r Hin)
      as (t & a & b & c & d & s & ->).
    reflexivity. }
  rewrite Hrows. unfold sort_values. cbn [columns rows].
  change (FILE_COLUMNS ++ ["maturity_date"%string]) with OUTPUT_COLUMNS.
  rewrite (finalize_rows_typed rs Htag). reflexivity.
Qed.

Lemma consolidate_sorted (all_data : list DataFrame) (out : DataFrame) :
  consolidate all_data = Ret out -> sorted_by_code_and_date out.
Proof.
  unfold consolidate.
  destruct (apply_str _ _) as [codes |]; [| discriminate]. cbn [bind].
  destruct (apply_str _ _) as [maturities |]; [| discriminate]. cbn [bind].
  apply sort_values_sorted.
Qed.

Lemma empty_table_sorted : sorted_by_code_and_date DataFrame_new.
Proof. intros [| i] r1 r2 H; discriminate. Qed.

(** The download phase never raises. *)
Lemma download_years_returns env self cy asset_code (years : list Z) :
  forall all_files w,
    exists out w', download_years env self cy asset_code years all_files w
                   = (Ret out, w').
Proof.
  induction years as [| year rest IH]; intros all_files w; cbn [download_years].
  - eauto.
  - destruct (_download_file_result env self cy asset_code year w)
      as (r & w' & -> & _).
    destruct r as [file_path |]; apply IH.
Qed.

Lemma download_assets_returns env self cy (asset_codes : list string) years :
  forall all_files w,
    exists out w', download_assets env self cy asset_codes years all_files w
                   = (Ret out, w').
Proof.
  induction asset_codes as [| c rest IH]; intros all_files w; cbn [download_assets].
  - eauto.
  - destruct (download_years_returns env self cy c years all_files w)
      as (out & w' & ->).
    apply IH.
Qed.

(** With valid codes the method returns a table, and the table is sorted. *)
Lemma get_treasury_data_method_returns env h self cy asset_codes fy ly w :
  codes_valid h asset_codes ->
  exists df w',
    get_treasury_data_method env h self cy asset_codes fy ly w = (Ret df, w') /\
    sorted_by_code_and_date df.
Proof.
  intros Hvalid. unfold get_treasury_data_method.
  fold (requested_codes h asset_codes).
  rewrite (no_invalid_codes h asset_codes Hvalid).
  destruct (download_assets_returns env self cy (requested_codes h asset_codes)
              (range (if fy <? FIRST_YEAR then FIRST_YEAR else fy)
                     (match ly with None => cy | Some y => y end + 1)) [] w)
    as (all_files & w' & ->).
  destruct all_files as [| p ps].
  { eexists _, _. split; [reflexivity | exact empty_table_sorted]. }
  destruct (read_files_file_tables env w' (p :: ps) [] (List.Forall_nil file_table))
    as (all_data & -> & Hall).
  destruct all_data as [| d ds].
  { eexists _, _. split; [reflexivity | exact empty_table_sorted]. }
  rewrite (consolidate_file_tables d ds Hall).
  eexists _, _. split; [reflexivity |].
  apply (consolidate_sorted (d :: ds)). exact (consolidate_file_tables d ds Hall).
Qed.

Lemma get_treasury_data_method_sorted env h self cy asset_codes fy ly w df w' :
  get_treasury_data_method env h self cy asset_codes fy ly w = (Ret df, w') ->
  sorted_by_code_and_date df.
Proof.
  unfold get_treasury_data_method.
  destruct (List.filter _ _); [| discriminate].
  destruct (download_assets _ _ _ _ _ _ _) as [[all_files | e] w1]; [| discriminate].
  destruct all_files as [| p ps].
  { intros [= <- _]. exact empty_table_sorted. }
  destruct (read_files _ _ _ _) as [all_data | e]; [| discriminate].
  destruct all_data as [| d ds].
  { intros [= <- _]. exact empty_table_sorted. }
  intros [= H _]. exact (consolidate_sorted _ _ H).
Qed.

(* ===================================================================== *)
(** ** The consolidated table *)
(* ===================================================================== *)

(** C7: the table [get_treasury_data] returns is sorted by
    ([asset_code], [ref_date]): of two consecutive rows, the first has the
    strictly smaller code, or the same code and a date that is not later.
    With valid codes the call does return a table. *)
Theorem C7_dataset_sorted env h self cy asset_codes fy ly dir w :
  (forall df w',
      get_treasury_data_method env h self cy asset_codes fy ly w = (Ret df, w') ->
      sorted_by_code_and_date df) /\
  (forall df w',
      get_treasury_data env h cy asset_codes fy ly dir w = (Ret df, w') ->
      sorted_by_code_and_date df) /\
  (codes_valid h asset_codes ->
   exists df w',
     get_treasury_data env h cy asset_codes fy ly dir w = (Ret df, w') /\
     sorted_by_code_and_date df).
Proof.
  split; [| split].
  - intros df w'. apply get_treasury_data_method_sorted.
  - intros df w'. unfold get_treasury_data. destruct (__init__ env dir w).
    apply get_treasury_data_method_sorted.
  - intros Hvalid. unfold get_treasury_data. destruct (__init__ env dir w).
    now apply get_treasury_data_method_returns.
Qed.

Lemma C7_dataset_sorted_witness :
  (exists df w',
      get_treasury_data Demo.env heap_at_import 2024 (Some ["LTN"%string]) 2020
        (Some 2020) None Demo.empty_world = (Ret df, w') /\
      map (get (columns df) "asset_code") (rows df)
      = [CStr "LTN 010123"; CStr "LTN 010125"; CStr "LTN 010125"] /\
      map (get (columns df) "ref_date") (rows df)
      = [CTime 20200102; CTime 20200102; CTime 20200103] /\
      sorted_by_code_and_date df) /\
  (codes_valid heap_at_import (Some ["LTN"%string]) /\
   exists df w',
     get_treasury_data Demo.env heap_at_import 2024 (Some ["LTN"%string]) 2020
       (Some 2020) None Demo.empty_world = (Ret df, w') /\
     sorted_by_code_and_date df).
Proof.
  pose proof (C7_dataset_sorted Demo.env heap_at_import Demo.td 2024
                (Some ["LTN"%string]) 2020 (Some 2020) None Demo.empty_world)
    as (_ & Hsorted & Hreturns).
  split.
  - eexists _, _. split; [vm_compute; reflexivity |].
    split; [reflexivity |]. split; [reflexivity |].
    eapply Hsorted. vm_compute. reflexivity.
  - assert (Hvalid : codes_valid heap_at_import (Some ["LTN"%string])).
    { intros c Hc. simpl in Hc. destruct Hc as [<- | []]. reflexivity. }
    split; [exact Hvalid | exact (Hreturns Hvalid)].
Defined.

(* ===================================================================== *)
(** ** Failures that do not stop the pipeline *)
(* ===================================================================== *)

(** C8: with valid codes [get_treasury_data] returns a table and never
    raises.  A fetch that fails returns none and the loop goes on without the
    pair; a file whose reading raises gives the empty table and the loop goes
    on without it; when no file was fetched, or no file gave rows, the call
    returns the empty table. *)
Theorem C8_partial_failures_do_not_raise env h self cy asset_codes fy ly dir w :
  codes_valid h asset_codes ->
  (exists df w',
      get_treasury_data_method env h self cy asset_codes fy ly w = (Ret df, w')) /\
  (exists df w',
      get_treasury_data env h cy asset_codes fy ly dir w = (Ret df, w')) /\
  (forall code year w0,
      file_exists w0 (cache_path self code year) = false \/ year = cy ->
      http_success env (List.length (requests w0)) (download_url code year) = None ->
      fst (_download_file env self cy code year w0) = Ret None) /\
  (forall code year rest all_files w0,
      fst (_download_file env self cy code year w0) = Ret None ->
      download_years env self cy code (year :: rest) all_files w0
      = download_years env self cy code rest all_files
          (snd (_download_file env self cy code year w0))) /\
  (forall w0 file_path e,
      read_excel_body env w0 file_path = Raise e ->
      _read_excel_file env w0 file_path = Ret DataFrame_new) /\
  (forall w0 file_path rest all_data,
      _read_excel_file env w0 file_path = Ret DataFrame_new ->
      read_files env w0 (file_path :: rest) all_data
      = read_files env w0 rest all_data) /\
  (forall all_files w1,
      download_assets env self cy (requested_codes h asset_codes)
        (range (effective_first_year fy) (effective_last_year cy ly + 1)) [] w
      = (Ret all_files, w1) ->
      all_files = [] \/ read_files env w1 all_files [] = Ret [] ->
      get_treasury_data_method env h self cy asset_codes fy ly w
      = (Ret DataFrame_new, w1)).
Proof.
  intros Hvalid.
  split.
  { destruct (get_treasury_data_method_returns env h self cy asset_codes fy ly w Hvalid)
      as (df & w' & E & _). eauto. }
  split.
  { unfold get_treasury_data. destruct (__init__ env dir w) as [td w0].
    destruct (get_treasury_data_method_returns env h td cy asset_codes fy ly w0 Hvalid)
      as (df & w' & E & _). eauto. }
  split.
  { intros code year w0 Hmiss Hfail.
    rewrite _download_file_fetch.
    - cbv zeta. now rewrite Hfail.
    - destruct Hmiss as [-> | ->]; [reflexivity |].
      rewrite Z.eqb_refl. apply andb_false_r. }
  split.
  { intros code year rest all_files w0 Hnone. cbn [download_years].
    destruct (_download_file env self cy code year w0) as [[[p |] | e] w1];
      simpl in Hnone; try discriminate. reflexivity. }
  split.
  { intros w0 file_path e Hbody. unfold _read_excel_file. now rewrite Hbody. }
  split.
  { intros w0 file_path rest all_data Hread. cbn [read_files]. now rewrite Hread. }
  intros all_files w1 Hdown Hnothing.
  unfold get_treasury_data_method.
  fold (requested_codes h asset_codes).
  rewrite (no_invalid_codes h asset_codes Hvalid).
  fold (effective_first_year fy). fold (effective_last_year cy ly).
  rewrite Hdown. destruct all_files as [| p ps]; [reflexivity |].
  destruct Hnothing as [? | ->]; [discriminate | reflexivity].
Qed.

Lemma C8_partial_failures_do_not_raise_witness :
  codes_valid heap_at_import None /\
  (exists df w',
      get_treasury_data_method Demo.offline heap_at_import Demo.td 2024 None 2020
        (Some 2021) Demo.empty_world = (Ret df, w')) /\
  fst (_download_file Demo.offline Demo.td 2024 "LTN" 2020 Demo.empty_world) = Ret None /\
  _read_excel_file Demo.env Demo.empty_world (cache_path Demo.td "LTN" 2020)
  = Ret DataFrame_new.
Proof.
  assert (Hvalid : codes_valid heap_at_import None).
  { intros c Hc. vm_compute in Hc.
    repeat (destruct Hc as [<- | Hc]; [reflexivity |]). contradiction. }
  pose proof (C8_partial_failures_do_not_raise Demo.offline heap_at_import Demo.td
                2024 None 2020 (Some 2021) None Demo.empty_world Hvalid)
    as (Hreturns & _ & Hfetch & _).
  pose proof (C8_partial_failures_do_not_raise Demo.env heap_at_import Demo.td
                2024 None 2020 (Some 2021) None Demo.empty_world Hvalid)
    as (_ & _ & _ & _ & Hread & _).
  split; [exact Hvalid |]. split; [exact Hreturns |]. split.
  - apply Hfetch; [left |]; vm_compute; reflexivity.
  - apply (Hread _ _ ExcelError). vm_compute. reflexivity.
Defined.

(* ===================================================================== *)
(** * Further properties of the code *)
(* ===================================================================== *)

(** ** Replacing in strings *)

Lemma string_map_length (f : ascii -> ascii) (s : string) :
  String.length (string_map f s) = String.length s.
Proof. induction s as [| c s IH]; simpl; [reflexivity | now rewrite IH]. Qed.

Lemma string_map_map (f g : ascii -> ascii) (s : string) :
  string_map f (string_map g s) = string_map (fun c => f (g c)) s.
Proof. induction s as [| c s IH]; simpl; [reflexivity | now rewrite IH]. Qed.

Lemma string_map_ext (f g : ascii -> ascii) (s : string) :
  (forall c, f c = g c) -> string_map f s = string_map g s.
Proof.
  intros H. induction s as [| c s IH]; simpl; [reflexivity | now rewrite H, IH].
Qed.

Lemma string_map_app (f : ascii -> ascii) (a b : string) :
  string_map f (String.append a b) = String.append (string_map f a) (string_map f b).
Proof.
  induction a as [| c a IH]; [reflexivity |].
  rewrite append_cons. cbn [string_map]. now rewrite append_cons, IH.
Qed.

(** Replacing one character by one character is a map. *)
Lemma replace_char (a b : ascii) (s : string) :
  PyStr.replace s (String a EmptyString) (String b EmptyString)
  = string_map (fun c => if Ascii.eqb c a then b else c) s.
Proof.
  unfold PyStr.replace. induction s as [| c s IH]; [reflexivity |].
  rewrite replace_from_cons0, prefix_single. cbn [string_map].
  destruct (ascii_dec a c) as [<- | Hne].
  - rewrite Ascii.eqb_refl. cbn [String.length Nat.sub].
    rewrite append_cons, append_nil. now rewrite IH.
  - assert (E : Ascii.eqb c a = false) by (apply Ascii.eqb_neq; congruence).
    now rewrite E, IH.
Qed.

Lemma _normalize_asset_code_map (s : string) :
  _normalize_asset_code s = string_map storage_char s.
Proof.
  unfold _normalize_asset_code. rewrite !replace_char, string_map_map.
  apply string_map_ext. intros c. unfold storage_char.
  destruct (Ascii.eqb c " ") eqn:E1; simpl; [reflexivity |].
  reflexivity.
Qed.

Lemma storage_char_idem (c : ascii) : storage_char (storage_char c) = storage_char c.
Proof.
  unfold storage_char.
  destruct (Ascii.eqb c " " || Ascii.eqb c "-") eqn:E; [reflexivity |].
  now rewrite E.
Qed.

Lemma contains_char_map_storage (x : ascii) (s : string) :
  x = " "%char \/ x = "-"%char ->
  contains_char x (string_map storage_char s) = false.
Proof.
  intros Hx. induction s as [| c s IH]; [reflexivity |].
  cbn [string_map contains_char]. rewrite IH, orb_false_r.
  apply Ascii.eqb_neq. unfold storage_char.
  destruct (Ascii.eqb c " " || Ascii.eqb c "-") eqn:E.
  - destruct Hx as [-> | ->]; discriminate.
  - apply orb_false_elim in E as [E1 E2].
    apply Ascii.eqb_neq in E1, E2. destruct Hx as [-> | ->]; assumption.
Qed.

Lemma string_map_storage_id (s : string) :
  contains_char " " s = false -> contains_char "-" s = false ->
  string_map storage_char s = s.
Proof.
  induction s as [| c s IH]; [reflexivity |].
  cbn [contains_char string_map]. intros H1 H2.
  apply orb_false_elim in H1 as [E1 H1]. apply orb_false_elim in H2 as [E2 H2].
  rewrite (IH H1 H2). unfold storage_char. now rewrite E1, E2.
Qed.

(** X1: the storage form of a code has the length of the code and holds no
    space and no hyphen; normalizing is idempotent, and leaves alone a code
    that has neither. *)
Theorem X1_normalize_storage_form (asset_code : string) :
  String.length (_normalize_asset_code asset_code) = String.length asset_code /\
  contains_char " " (_normalize_asset_code asset_code) = false /\
  contains_char "-" (_normalize_asset_code asset_code) = false /\
  _normalize_asset_code (_normalize_asset_code asset_code)
  = _normalize_asset_code asset_code /\
  (contains_char " " asset_code = false -> contains_char "-" asset_code = false ->
   _normalize_asset_code asset_code = asset_code).
Proof.
  rewrite !_normalize_asset_code_map.
  split; [apply string_map_length |].
  split; [apply contains_char_map_storage; auto |].
  split; [apply contains_char_map_storage; auto |].
  split.
  - rewrite string_map_map. apply string_map_ext, storage_char_idem.
  - apply string_map_storage_id.
Qed.

Lemma X1_normalize_storage_form_witness :
  contains_char " " "NTN_B_Principal" = false /\
  contains_char "-" "NTN_B_Principal" = false /\
  _normalize_asset_code "NTN_B_Principal" = "NTN_B_Principal"%string.
Proof.
  assert (H1 : contains_char " " "NTN_B_Principal" = false) by reflexivity.
  assert (H2 : contains_char "-" "NTN_B_Principal" = false) by reflexivity.
  split; [exact H1 |]. split; [exact H2 |].
  exact (proj2 (proj2 (proj2 (proj2 (X1_normalize_storage_form "NTN_B_Principal")))) H1 H2).
Defined.

Lemma string_drop_length (k : nat) (s : string) :
  String.length (string_drop k s) = (String.length s - k)%nat.
Proof.
  revert s. induction k as [| k IH]; intros [| c s]; simpl; try reflexivity.
  - apply IH.
Qed.

(** Skipping [k] characters and going on is going on after them. *)
Lemma replace_from_skip (old new : string) (k : nat) (s : string) :
  PyStr.replace_from old new k s = PyStr.replace_from old new 0 (string_drop k s).
Proof.
  revert k. induction s as [| c s IH]; intros [| k]; try reflexivity.
  cbn [PyStr.replace_from string_drop]. apply IH.
Qed.

Lemma prefix_cons (a c : ascii) (p s : string) :
  String.prefix (String a p) (String c s)
  = if ascii_dec a c then String.prefix p s else false.
Proof. reflexivity. Qed.

Lemma prefix_nil_r (a : ascii) (p : string) :
  String.prefix (String a p) EmptyString = false.
Proof. reflexivity. Qed.

Lemma prefix_drop (old s : string) :
  String.prefix old s = true ->
  s = String.append old (string_drop (String.length old) s).
Proof.
  revert s. induction old as [| a old IH]; intros s H; [reflexivity |].
  destruct s as [| c s]; [discriminate |].
  rewrite prefix_cons in H. destruct (ascii_dec a c) as [<- | ]; [| discriminate].
  cbn [String.length string_drop]. rewrite append_cons. f_equal. now apply IH.
Qed.

(** At an occurrence of [old], [replace] writes [new] and goes on after the
    occurrence. *)
Lemma replace_from_match (a : ascii) (old new s : string) :
  String.prefix (String a old) s = true ->
  PyStr.replace_from (String a old) new 0 s
  = String.append new
      (PyStr.replace_from (String a old) new 0
         (string_drop (String.length (String a old)) s)).
Proof.
  intros H. destruct s as [| c s]; [discriminate |].
  rewrite replace_from_cons0, H, replace_from_skip.
  cbn [String.length Nat.sub string_drop]. now rewrite Nat.sub_0_r.
Qed.

(** A replacement that only trades separators for separators does not change
    the storage form. *)
Lemma replace_same_storage (a : ascii) (old new : string) :
  string_map storage_char (String a old) = string_map storage_char new ->
  forall s,
    string_map storage_char (PyStr.replace_from (String a old) new 0 s)
    = string_map storage_char s.
Proof.
  intros Hsame.
  assert (Hlen : forall n s, (String.length s <= n)%nat ->
             string_map storage_char (PyStr.replace_from (String a old) new 0 s)
             = string_map storage_char s).
  { induction n as [| n IH]; intros s Hn.
    - destruct s; [reflexivity | simpl in Hn; lia].
    - destruct s as [| c s]; [reflexivity |].
      destruct (String.prefix (String a old) (String c s)) eqn:Hp.
      + rewrite (replace_from_match a old new _ Hp), string_map_app, <- Hsame.
        rewrite IH.
        * rewrite <- string_map_app. f_equal. symmetry. now apply prefix_drop.
        * rewrite string_drop_length. cbn [String.length] in *. lia.
      + rewrite replace_from_cons0, Hp. cbn [string_map]. f_equal.
        apply IH. cbn [String.length] in Hn. lia. }
  intros s. now apply (Hlen (String.length s)).
Qed.

Lemma _denormalize_keeps_storage_form (s : string) :
  string_map storage_char (_denormalize_asset_code s) = string_map storage_char s.
Proof.
  unfold _denormalize_asset_code, PyStr.replace.
  rewrite !replace_same_storage by reflexivity. reflexivity.
Qed.

Lemma contains_char_replaced (a b : ascii) (s : string) :
  a <> b ->
  contains_char a (string_map (fun c => if Ascii.eqb c a then b else c) s) = false.
Proof.
  intros Hab. induction s as [| c s IH]; [reflexivity |].
  cbn [string_map contains_char]. rewrite IH, orb_false_r.
  destruct (Ascii.eqb c a) eqn:E; [apply Ascii.eqb_neq; congruence | exact E].
Qed.

Lemma prefix_contains (x : ascii) (old s : string) :
  String.prefix old s = true -> contains_char x old = true ->
  contains_char x s = true.
Proof.
  revert s. induction old as [| a old IH]; intros s Hp Hx; [discriminate |].
  destruct s as [| c s]; [discriminate |].
  rewrite prefix_cons in Hp. destruct (ascii_dec a c) as [<- | ]; [| discriminate].
  cbn [contains_char] in *. apply orb_prop in Hx as [-> | Hx]; [reflexivity |].
  rewrite (IH s Hp Hx). apply orb_true_r.
Qed.

(** A pattern with a character the string lacks occurs nowhere in it. *)
Lemma replace_absent (x a : ascii) (old new s : string) :
  contains_char x (String a old) = true -> contains_char x s = false ->
  PyStr.replace_from (String a old) new 0 s = s.
Proof.
  intros Hold. induction s as [| c s IH]; intros Hs; [reflexivity |].
  rewrite replace_from_cons0.
  destruct (String.prefix (String a old) (String c s)) eqn:Hp.
  - rewrite (prefix_contains x _ _ Hp Hold) in Hs. discriminate.
  - f_equal. apply IH. cbn [contains_char] in Hs.
    now apply orb_false_elim in Hs as [_ Hs].
Qed.

Lemma _denormalize_no_underscore (s : string) :
  contains_char "_" (_denormalize_asset_code s) = false.
Proof.
  unfold _denormalize_asset_code. rewrite (replace_char "_" " ").
  apply contains_char_replaced. discriminate.
Qed.

Lemma _denormalize_without_underscore (s : string) :
  contains_char "_" s = false -> _denormalize_asset_code s = s.
Proof.
  intros H. unfold _denormalize_asset_code, PyStr.replace.
  do 5 (rewrite (replace_absent "_"%char _ _ _ s) by (reflexivity || assumption)).
  reflexivity.
Qed.

(** X2: the display form of a code has the length of the code and holds no
    underscore; a code without underscore is its own display form, so
    denormalizing twice is denormalizing once. *)
Theorem X2_denormalize_display_form (asset_code : string) :
  String.length (_denormalize_asset_code asset_code) = String.length asset_code /\
  contains_char "_" (_denormalize_asset_code asset_code) = false /\
  (contains_char "_" asset_code = false ->
   _denormalize_asset_code asset_code = asset_code) /\
  _denormalize_asset_code (_denormalize_asset_code asset_code)
  = _denormalize_asset_code asset_code.
Proof.
  split.
  { rewrite <- (string_map_length storage_char (_denormalize_asset_code asset_code)).
    rewrite _denormalize_keeps_storage_form. apply string_map_length. }
  split; [apply _denormalize_no_underscore |].
  split; [apply _denormalize_without_underscore |].
  apply _denormalize_without_underscore, _denormalize_no_underscore.
Qed.

Lemma X2_denormalize_display_form_witness :
  contains_char "_" "NTN-B Principal 150545" = false /\
  _denormalize_asset_code "NTN-B Principal 150545" = "NTN-B Principal 150545"%string.
Proof.
  assert (H : contains_char "_" "NTN-B Principal 150545" = false) by reflexivity.
  split; [exact H |].
  exact (proj1 (proj2 (proj2 (X2_denormalize_display_form "NTN-B Principal 150545"))) H).
Defined.

(** X3: denormalizing only trades separators for separators: the display
    form of a code normalizes to what the code normalizes to.  So a code in
    storage form is recovered from its display form, and a code and its
    display form share their cache file and their URL. *)
Theorem X3_normalize_after_denormalize (asset_code : string) :
  _normalize_asset_code (_denormalize_asset_code asset_code)
  = _normalize_asset_code asset_code /\
  (contains_char " " asset_code = false -> contains_char "-" asset_code = false ->
   _normalize_asset_code (_denormalize_asset_code asset_code) = asset_code) /\
  (forall self year,
      cache_path self (_denormalize_asset_code asset_code) year
      = cache_path self asset_code year) /\
  (forall year,
      download_url (_denormalize_asset_code asset_code) year
      = download_url asset_code year).
Proof.
  assert (E : _normalize_asset_code (_denormalize_asset_code asset_code)
              = _normalize_asset_code asset_code).
  { rewrite !_normalize_asset_code_map. apply _denormalize_keeps_storage_form. }
  split; [exact E |]. split.
  - intros H1 H2. rewrite E, _normalize_asset_code_map.
    now apply string_map_storage_id.
  - split; intros; unfold cache_path, download_url, cache_filename; now rewrite E.
Qed.

Lemma X3_normalize_after_denormalize_witness :
  contains_char " " "NTN_B_Principal_150545" = false /\
  contains_char "-" "NTN_B_Principal_150545" = false /\
  _denormalize_asset_code "NTN_B_Principal_150545" = "NTN-B Principal 150545"%string /\
  _normalize_asset_code (_denormalize_asset_code "NTN_B_Principal_150545")
  = "NTN_B_Principal_150545"%string.
Proof.
  assert (H1 : contains_char " " "NTN_B_Principal_150545" = false) by reflexivity.
  assert (H2 : contains_char "-" "NTN_B_Principal_150545" = false) by reflexivity.
  split; [exact H1 |]. split; [exact H2 |]. split; [reflexivity |].
  exact (proj1 (proj2 (X3_normalize_after_denormalize "NTN_B_Principal_150545")) H1 H2).
Defined.

(* ===================================================================== *)
(** ** More on the maturity parser *)
(* ===================================================================== *)

Lemma append_length (a b : string) :
  String.length (String.append a b) = (String.length a + String.length b)%nat.
Proof.
  induction a as [| c a IH]; [reflexivity |].
  rewrite append_cons. cbn [String.length]. now rewrite IH.
Qed.

Lemma append_assoc (a b c : string) :
  String.append (String.append a b) c = String.append a (String.append b c).
Proof.
  induction a as [| x a IH]; [reflexivity |].
  rewrite !append_cons. now rewrite IH.
Qed.

(** Removing the spaces of a string is removing them from its parts. *)
Lemma remove_spaces_app (a b : string) :
  PyStr.replace (String.append a b) " " ""
  = String.append (PyStr.replace a " " "") (PyStr.replace b " " "").
Proof.
  unfold PyStr.replace. induction a as [| c a IH]; [reflexivity |].
  rewrite append_cons, !replace_from_cons0, !prefix_single.
  destruct (ascii_dec " " c) as [<- | Hne].
  - rewrite !append_nil. exact IH.
  - rewrite append_cons. now rewrite IH.
Qed.

Lemma digit_is_not_a_space (c : ascii) : PyStr.is_digit c = true -> " "%char <> c.
Proof. intros H <-. discriminate. Qed.

Lemma remove_spaces_digits (g : string) :
  PyStr.all_digits g = true -> PyStr.replace g " " "" = g.
Proof.
  unfold PyStr.replace. induction g as [| c g IH]; [reflexivity |].
  cbn [PyStr.all_digits]. intros H. apply andb_prop in H as [Hc Hg].
  rewrite replace_from_cons0, prefix_single.
  destruct (ascii_dec " " c) as [E | _]; [now apply digit_is_not_a_space in E |].
  now rewrite IH.
Qed.

Lemma int_of_digits (c : ascii) (s : string) :
  PyStr.all_digits (String c s) = true ->
  PyStr.int (String c s) = Ret (PyStr.int_digits 0 (String c s)).
Proof. intros H. unfold PyStr.int. now rewrite H. Qed.

Lemma int_digits_two (c1 c2 : ascii) :
  PyStr.is_digit c1 = true -> PyStr.is_digit c2 = true ->
  0 <= PyStr.int_digits 0 (String c1 (String c2 EmptyString)) < 100.
Proof.
  intros H1 H2. cbn [PyStr.int_digits].
  pose proof (digit_value c1 H1). pose proof (digit_value c2 H2). lia.
Qed.

(** The shape of a group of six digits. *)
Lemma six_digits_inv (g : string) :
  String.length g = 6%nat -> PyStr.all_digits g = true ->
  exists c1 c2 c3 c4 c5 c6,
    g = String c1 (String c2 (String c3 (String c4 (String c5 (String c6 EmptyString))))) /\
    PyStr.is_digit c1 = true /\ PyStr.is_digit c2 = true /\ PyStr.is_digit c3 = true /\
    PyStr.is_digit c4 = true /\ PyStr.is_digit c5 = true /\ PyStr.is_digit c6 = true.
Proof.
  intros Hlen Hdig.
  destruct g as [| c1 [| c2 [| c3 [| c4 [| c5 [| c6 [| c7 g]]]]]]]; try discriminate.
  cbn [PyStr.all_digits] in Hdig.
  repeat (apply andb_prop in Hdig as [?H Hdig]).
  exists c1, c2, c3, c4, c5, c6. auto 10.
Qed.

(** When the pattern matches, the result is the date the group stands for. *)
Lemma _get_maturity_date_decode (asset_code g : string) :
  PyStr.re_search_d6_end (PyStr.replace asset_code " " "") = Some g ->
  _get_maturity_date asset_code = decode_ddmmyy g.
Proof.
  intros Hsearch. unfold _get_maturity_date, decode_ddmmyy. rewrite Hsearch.
  destruct (re_search_d6_end_spec _ _ Hsearch) as (_ & _ & _ & Hlen & Hdig & _).
  destruct (six_digits_inv g Hlen Hdig)
    as (c1 & c2 & c3 & c4 & c5 & c6 & -> & H1 & H2 & H3 & H4 & H5 & H6).
  change (String.substring 0 2 (String c1 (String c2 (String c3 (String c4 (String c5 (String c6 EmptyString)))))))
    with (String c1 (String c2 EmptyString)).
  change (String.substring 2 2 (String c1 (String c2 (String c3 (String c4 (String c5 (String c6 EmptyString)))))))
    with (String c3 (String c4 EmptyString)).
  change (String.substring 4 2 (String c1 (String c2 (String c3 (String c4 (String c5 (String c6 EmptyString)))))))
    with (String c5 (String c6 EmptyString)).
  rewrite !int_of_digits by (cbn [PyStr.all_digits]; now rewrite ?H1, ?H2, ?H3, ?H4, ?H5, ?H6).
  cbn [bind].
  destruct (date_new _ _ _) as [d | e] eqn:Hdate; cbn [bind try_except]; [reflexivity |].
  unfold date_new in Hdate. destruct (_ && _); [discriminate |].
  injection Hdate as <-. reflexivity.
Qed.

Lemma match_d6_end_exact (g rest : string) :
  String.length g = 6%nat -> PyStr.all_digits g = true ->
  rest = EmptyString \/ rest = PyStr.newline ->
  PyStr.match_d6_end (String.append g rest) = Some g.
Proof.
  intros Hlen Hdig Hrest.
  destruct (six_digits_inv g Hlen Hdig)
    as (c1 & c2 & c3 & c4 & c5 & c6 & -> & _).
  set (g := String c1 (String c2 (String c3 (String c4 (String c5 (String c6 EmptyString)))))) in *.
  assert (Hg : String.substring 0 6 (String.append g rest) = g)
    by (destruct Hrest as [-> | ->]; reflexivity).
  assert (Hr : String.substring 6 (String.length (String.append g rest) - 6)
                 (String.append g rest) = rest)
    by (destruct Hrest as [-> | ->]; reflexivity).
  unfold PyStr.match_d6_end. cbv zeta. rewrite Hg, Hr, Hdig.
  destruct Hrest as [-> | ->]; reflexivity.
Qed.

(** Six digits at the end of a string, or before its final newline, are what
    the search finds, whatever comes before them. *)
Lemma re_search_d6_end_complete (pre g rest : string) :
  String.length g = 6%nat -> PyStr.all_digits g = true ->
  rest = EmptyString \/ rest = PyStr.newline ->
  PyStr.re_search_d6_end (String.append pre (String.append g rest)) = Some g.
Proof.
  intros Hlen Hdig Hrest. induction pre as [| c pre IH].
  - rewrite append_nil.
    pose proof (match_d6_end_exact g rest Hlen Hdig Hrest) as Hm.
    destruct (String.append g rest) as [| x s] eqn:E.
    + destruct g; discriminate.
    + rewrite re_search_d6_end_cons, Hm. reflexivity.
  - rewrite append_cons, re_search_d6_end_cons, IH.
    destruct (PyStr.match_d6_end _) as [g' |] eqn:Hm; [| reflexivity].
    exfalso.
    apply match_d6_end_spec in Hm as (rest' & E & Hlen' & _ & Hrest').
    assert (Hl : String.length (String c (String.append pre (String.append g rest)))
                 = String.length (String.append g' rest')) by now rewrite E.
    cbn [String.length] in Hl. rewrite !append_length, Hlen, Hlen' in Hl.
    destruct Hrest' as [-> | ->]; cbn [String.length PyStr.newline] in Hl; [lia |].
    assert (Hpre : pre = EmptyString)
      by (destruct pre; [reflexivity | cbn [String.length] in Hl; lia]).
    assert (Hr : rest = EmptyString).
    { destruct Hrest as [-> | ->]; [reflexivity |].
      cbn [String.length PyStr.newline] in Hl. lia. }
    subst pre rest. rewrite append_nil, string_app_empty_r in E.
    destruct (six_digits_inv g Hlen Hdig)
      as (c1 & c2 & c3 & c4 & c5 & c6 & -> & _ & _ & _ & _ & _ & H6).
    destruct g' as [| d1 [| d2 [| d3 [| d4 [| d5 [| d6 [| d7 g']]]]]]];
      try discriminate.
    cbn [String.append PyStr.newline] in E. injection E as _ _ _ _ _ _ E6.
    subst c6. vm_compute in H6. discriminate.
Qed.

(** X4: a code that ends in six digits [ddmmyy] is read as the date those
    digits stand for under the century rule, and as none when that date does
    not exist, whatever precedes the digits; a newline after the digits
    changes nothing. *)
Theorem X4_maturity_of_trailing_digits (name g : string) :
  String.length g = 6%nat -> PyStr.all_digits g = true ->
  _get_maturity_date (String.append name g) = decode_ddmmyy g /\
  _get_maturity_date (String.append name (String.append g PyStr.newline))
  = decode_ddmmyy g.
Proof.
  intros Hlen Hdig. split; apply _get_maturity_date_decode.
  - rewrite remove_spaces_app, (remove_spaces_digits g Hdig).
    rewrite <- (string_app_empty_r g) at 1.
    apply re_search_d6_end_complete; auto.
  - rewrite !remove_spaces_app, (remove_spaces_digits g Hdig).
    change (PyStr.replace PyStr.newline " " "") with PyStr.newline.
    apply re_search_d6_end_complete; auto.
Qed.

Lemma X4_maturity_of_trailing_digits_witness :
  String.length "290224" = 6%nat /\ PyStr.all_digits "290224" = true /\
  _get_maturity_date (String.append "NTN-B Principal 2024 " "290224")
  = Some (mkdate 2024 2 29) /\
  decode_ddmmyy "290223" = None.
Proof.
  assert (Hlen : String.length "290224" = 6%nat) by reflexivity.
  assert (Hdig : PyStr.all_digits "290224" = true) by reflexivity.
  split; [exact Hlen |]. split; [exact Hdig |]. split; [| reflexivity].
  rewrite (proj1 (X4_maturity_of_trailing_digits "NTN-B Principal 2024 " "290224"
                    Hlen Hdig)).
  reflexivity.
Defined.

(** X5: a date the parser returns is a date of the calendar, with a year
    from 1951 to 2050. *)
Theorem X5_maturity_is_a_calendar_date (asset_code : string) (d : date) :
  _get_maturity_date asset_code = Some d ->
  1951 <= year d <= 2050 /\
  1 <= month d <= 12 /\
  1 <= day d <= days_in_month (year d) (month d) /\
  date_new (year d) (month d) (day d) = Ret d.
Proof.
  intros Hd.
  destruct (PyStr.re_search_d6_end (PyStr.replace asset_code " " "")) as [g |] eqn:Hs.
  2:{ unfold _get_maturity_date in Hd. rewrite Hs in Hd. discriminate. }
  rewrite (_get_maturity_date_decode _ _ Hs) in Hd.
  destruct (re_search_d6_end_spec _ _ Hs) as (_ & _ & _ & Hlen & Hdig & _).
  destruct (six_digits_inv g Hlen Hdig)
    as (c1 & c2 & c3 & c4 & c5 & c6 & -> & H1 & H2 & H3 & H4 & H5 & H6).
  unfold decode_ddmmyy in Hd.
  change (String.substring 0 2 (String c1 (String c2 (String c3 (String c4 (String c5 (String c6 EmptyString)))))))
    with (String c1 (String c2 EmptyString)) in Hd.
  change (String.substring 2 2 (String c1 (String c2 (String c3 (String c4 (String c5 (String c6 EmptyString)))))))
    with (String c3 (String c4 EmptyString)) in Hd.
  change (String.substring 4 2 (String c1 (String c2 (String c3 (String c4 (String c5 (String c6 EmptyString)))))))
    with (String c5 (String c6 EmptyString)) in Hd.
  pose proof (int_digits_two c5 c6 H5 H6) as Hyy.
  set (yy := PyStr.int_digits 0 (String c5 (String c6 EmptyString))) in *.
  set (mm := PyStr.int_digits 0 (String c3 (String c4 EmptyString))) in *.
  set (dd := PyStr.int_digits 0 (String c1 (String c2 EmptyString))) in *.
  cbv zeta in Hd.
  destruct (date_new _ mm dd) as [d' |] eqn:Hdate; [| discriminate].
  injection Hd as ->. unfold date_new in Hdate.
  destruct (_ && _) eqn:Hcond; [| discriminate]. injection Hdate as <-.
  cbn [year month day].
  assert (Hnew : date_new (if yy <=? 50 then yy + 2000 else yy + 1900) mm dd
                 = Ret (mkdate (if yy <=? 50 then yy + 2000 else yy + 1900) mm dd))
    by (unfold date_new; now rewrite Hcond).
  repeat (apply andb_prop in Hcond as [Hcond ?H]).
  repeat match goal with H : (_ <=? _) = true |- _ => apply Z.leb_le in H end.
  split; [destruct (yy <=? 50) eqn:E;
          [apply Z.leb_le in E | apply Z.leb_gt in E]; lia |].
  split; [lia |]. split; [lia | exact Hnew].
Qed.

Lemma X5_maturity_is_a_calendar_date_witness :
  _get_maturity_date "LTN 010151" = Some (mkdate 1951 1 1) /\
  1951 <= year (mkdate 1951 1 1) <= 2050.
Proof.
  assert (H : _get_maturity_date "LTN 010151" = Some (mkdate 1951 1 1)) by reflexivity.
  split; [exact H |].
  exact (proj1 (X5_maturity_is_a_calendar_date "LTN 010151" (mkdate 1951 1 1) H)).
Defined.

(** X6: spaces do not count, wherever they are in the code: a code with a
    space put in, even between the digits, is read like the code without
    it. *)
Theorem X6_maturity_ignores_spaces (a b : string) :
  _get_maturity_date (String.append a (String.append " " b))
  = _get_maturity_date (String.append a b).
Proof.
  unfold _get_maturity_date. rewrite !remove_spaces_app.
  change (PyStr.replace " " " " "") with EmptyString. now rewrite append_nil.
Qed.

(* ===================================================================== *)
(** ** What a fetch does to the cache *)
(* ===================================================================== *)




Lemma mkdir_keeps (p d : Path) (w : World) : d ∈ dirs w -> d ∈ dirs (mkdir p w).
Proof. intros H. unfold mkdir. cbn [dirs]. apply elem_of_union. now left. Qed.

Lemma file_exists_write_other (p q : Path) (data : bytes) (w : World) :
  file_exists w q = true -> file_exists (write_file p data w) q = true.
Proof.
  unfold file_exists, write_file. cbn [files].
  destruct (decide (p = q)) as [-> | Hne].
  - now rewrite lookup_insert_eq.
  - now rewrite lookup_insert_ne.
Qed.



(* ===================================================================== *)
(** ** What a run does to the world *)
(* ===================================================================== *)

Lemma fetch_effects_none (self : TesouroDireto) (pairs : list (string * Z)) (w : World) :
  fetch_effects self pairs w w.
Proof.
  split; [| auto]. exists []. rewrite app_nil_r.
  split; [reflexivity |]. split; [simpl; lia | intros u []].
Qed.

Lemma fetch_effects_app (self : TesouroDireto) (ps1 ps2 : list (string * Z))
    (w w1 w2 : World) :
  fetch_effects self ps1 w w1 -> fetch_effects self ps2 w1 w2 ->
  fetch_effects self (ps1 ++ ps2) w w2.
Proof.
  intros ((new1 & Hr1 & Hl1 & Hu1) & Hf1 & He1 & Hd1)
         ((new2 & Hr2 & Hl2 & Hu2) & Hf2 & He2 & Hd2).
  split; [| split; [| split]].
  - exists (new1 ++ new2). rewrite Hr2, Hr1, <- app_assoc.
    split; [reflexivity |]. split; [rewrite !length_app; lia |].
    intros u Hu. apply in_app_or in Hu as [Hu | Hu].
    + destruct (Hu1 u Hu) as (c & y & Hin & ->). exists c, y.
      split; [apply in_or_app; auto | reflexivity].
    + destruct (Hu2 u Hu) as (c & y & Hin & ->). exists c, y.
      split; [apply in_or_app; auto | reflexivity].
  - intros q Hq. rewrite Hf2, Hf1; [reflexivity | |];
      intros c y Hin; apply Hq, in_or_app; auto.
  - auto.
  - auto.
Qed.

(** The effects of one call, as a fetch of its pair. *)
Lemma _download_file_fetch_effects env self cy (c : string) (y : Z) (w : World) :
  fetch_effects self [(c, y)] w (snd (_download_file env self cy c y w)).
Proof.
  assert (Hreq : forall w' : World,
             requests w' = requests w \/ requests w' = requests w ++ [download_url c y] ->
             exists new,
               requests w' = requests w ++ new /\
               (List.length new <= List.length [(c, y)])%nat /\
               forall u, In u new ->
                         exists c0 y0, In (c0, y0) [(c, y)] /\ u = download_url c0 y0).
  { intros w' [E | E].
    - exists []. rewrite app_nil_r. split; [exact E |]. split; [simpl; lia | intros u []].
    - exists [download_url c y]. split; [exact E |]. split; [simpl; lia |].
      intros u [<- | []]. exists c, y. simpl. auto. }
  assert (Hpath : forall q, (forall c0 y0, In (c0, y0) [(c, y)] -> q <> cache_path self c0 y0)
                            -> q <> cache_path self c y)
    by (intros q H; apply H; simpl; auto).
  destruct (file_exists w (cache_path self c y) && negb (y =? cy)) eqn:E.
  - rewrite (_download_file_hit _ _ _ _ _ _ E). cbn [snd].
    split; [apply Hreq; now left |]. repeat split; auto using mkdir_keeps.
  - rewrite (_download_file_fetch _ _ _ _ _ _ E). cbv zeta.
    destruct (http_success _ _ _) as [resp |]; cbn [snd].
    + split; [apply Hreq; now right |].
      split; [intros q Hq; apply Hpath in Hq; unfold write_file; cbn [files];
              now rewrite lookup_insert_ne by congruence |].
      split; [intros q Hq; now apply file_exists_write_other |].
      intros d Hd. now apply mkdir_keeps.
    + split; [apply Hreq; now right |].
      split; [reflexivity |]. split; [auto |].
      intros d Hd. now apply mkdir_keeps.
Qed.

Lemma fetched_paths_later (self : TesouroDireto) (ps ps' : list (string * Z))
    (w1 w2 : World) (paths : list Path) :
  fetched_paths self ps w1 paths ->
  (forall x, In x ps -> In x ps') ->
  (forall q, file_exists w1 q = true -> file_exists w2 q = true) ->
  fetched_paths self ps' w2 paths.
Proof.
  intros H Hincl Hmono p Hp. destruct (H p Hp) as ((c & y & Hin & ->) & Hex).
  split; [exists c, y; auto | auto].
Qed.

Lemma download_years_effects env self cy (c : string) (years : list Z) :
  forall all_files w,
    let run := download_years env self cy c years all_files w in
    fetch_effects self (map (pair c) years) w (snd run) /\
    exists extra, fst run = Ret (all_files ++ extra) /\
                  fetched_paths self (map (pair c) years) (snd run) extra.
Proof.
  induction years as [| y rest IH]; intros all_files w; cbv zeta.
  - cbn [download_years fst snd map]. split; [apply fetch_effects_none |].
    exists []. rewrite app_nil_r. split; [reflexivity | intros p []].
  - cbn [download_years map].
    pose proof (_download_file_fetch_effects env self cy c y w) as Hstep.
    destruct (_download_file_result env self cy c y w) as (r & w1 & E & Hfile).
    rewrite E in *. cbn [snd] in Hstep.
    assert (Hsplit : forall acc,
               let run := download_years env self cy c rest acc w1 in
               fetch_effects self ((c, y) :: map (pair c) rest) w (snd run)).
    { intros acc. cbv zeta. change ((c, y) :: map (pair c) rest)
        with ([(c, y)] ++ map (pair c) rest).
      eapply fetch_effects_app; [exact Hstep | apply IH]. }
    destruct r as [p |].
    + split; [apply Hsplit |].
      destruct (IH (all_files ++ [p]) w1) as (Heff & extra & Eout & Hpaths).
      exists (p :: extra). rewrite Eout, <- app_assoc. split; [reflexivity |].
      intros q [<- | Hq].
      * destruct (Hfile p eq_refl) as [-> Hex]. split.
        -- exists c, y. simpl. auto.
        -- destruct Heff as (_ & _ & Hmono & _). now apply Hmono.
      * destruct (Hpaths q Hq) as ((c0 & y0 & Hin & ->) & Hex).
        split; [exists c0, y0; simpl; auto | exact Hex].
    + split; [apply Hsplit |].
      destruct (IH all_files w1) as (Heff & extra & Eout & Hpaths).
      exists extra. split; [exact Eout |].
      intros q Hq. destruct (Hpaths q Hq) as ((c0 & y0 & Hin & ->) & Hex).
      split; [exists c0, y0; simpl; auto | exact Hex].
Qed.

Lemma download_assets_effects env self cy (codes : list string) (years : list Z) :
  forall all_files w,
    let run := download_assets env self cy codes years all_files w in
    fetch_effects self (list_prod codes years) w (snd run) /\
    exists extra, fst run = Ret (all_files ++ extra) /\
                  fetched_paths self (list_prod codes years) (snd run) extra.
Proof.
  induction codes as [| c rest IH]; intros all_files w; cbv zeta.
  - cbn [download_assets fst snd list_prod]. split; [apply fetch_effects_none |].
    exists []. rewrite app_nil_r. split; [reflexivity | intros p []].
  - cbn [download_assets list_prod].
    destruct (download_years_effects env self cy c years all_files w)
      as (Heff1 & extra1 & E1 & Hp1).
    destruct (download_years env self cy c years all_files w) as [r1 w1].
    cbn [fst snd] in *. subst r1.
    destruct (IH (all_files ++ extra1) w1) as (Heff2 & extra2 & E2 & Hp2).
    split; [eapply fetch_effects_app; eassumption |].
    exists (extra1 ++ extra2). rewrite E2, <- app_assoc. split; [reflexivity |].
    intros p Hp. apply in_app_or in Hp as [Hp | Hp].
    + eapply (fetched_paths_later self (map (pair c) years)); try exact Hp1; auto.
      * intros x Hx. apply in_or_app. now left.
      * now destruct Heff2 as (_ & _ & Hmono & _).
    + destruct (Hp2 p Hp) as ((c0 & y0 & Hin & ->) & Hex).
      split; [exists c0, y0; split; [apply in_or_app; auto | reflexivity] | exact Hex].
Qed.

Lemma In_range (first stop y : Z) : In y (range first stop) <-> first <= y < stop.
Proof.
  unfold range. rewrite in_map_iff. split.
  - intros (i & <- & Hi). apply in_seq in Hi. lia.
  - intros H. exists (Z.to_nat (y - first)). split; [lia |]. apply in_seq. lia.
Qed.

Lemma In_requested_years (cy fy : Z) (ly : option Z) (y : Z) :
  In y (requested_years cy fy ly) <->
  effective_first_year fy <= y <= effective_last_year cy ly.
Proof. unfold requested_years. rewrite In_range. lia. Qed.


(** The world after the method, whatever comes of the call. *)
Lemma get_treasury_data_method_effects env h self cy asset_codes fy ly w :
  fetch_effects self
    (list_prod (requested_codes h asset_codes) (requested_years cy fy ly))
    w (snd (get_treasury_data_method env h self cy asset_codes fy ly w)).
Proof.
  unfold get_treasury_data_method. fold (requested_codes h asset_codes).
  fold (effective_first_year fy). fold (effective_last_year cy ly).
  fold (requested_years cy fy ly).
  destruct (List.filter _ _); [| apply fetch_effects_none].
  pose proof (download_assets_effects env self cy (requested_codes h asset_codes)
                (requested_years cy fy ly) [] w) as (Heff & _).
  destruct (download_assets _ _ _ _ _ _ _) as [[all_files | e] w1]; cbn [snd] in *;
    [| exact Heff].
  destruct all_files; [exact Heff |].
  destruct (read_files _ _ _ _) as [[| d ds] | e]; exact Heff.
Qed.



(** X9: a call of [get_treasury_data], valid or not, leaves the content of
    every path alone that is not the cache path of a requested asset and
    year; in particular it writes nothing outside the cache directory.  It
    removes no file and no directory. *)
Theorem X9_files_of_a_run env h self cy asset_codes fy ly w :
  let codes := requested_codes h asset_codes in
  let w' := snd (get_treasury_data_method env h self cy asset_codes fy ly w) in
  (forall q,
      (forall c y, In c codes ->
                   effective_first_year fy <= y <= effective_last_year cy ly ->
                   q <> cache_path self c y) ->
      files w' !! q = files w !! q) /\
  (forall q, (forall rest, q <> cache_dir self ++ rest) -> files w' !! q = files w !! q) /\
  (forall q, file_exists w q = true -> file_exists w' q = true) /\
  (forall d, d ∈ dirs w -> d ∈ dirs w').
Proof.
  cbv zeta.
  destruct (get_treasury_data_method_effects env h self cy asset_codes fy ly w)
    as (_ & Hfiles & Hmono & Hdirs).
  assert (Hframe : forall q,
             (forall c y, In c (requested_codes h asset_codes) ->
                          effective_first_year fy <= y <= effective_last_year cy ly ->
                          q <> cache_path self c y) ->
             files (snd (get_treasury_data_method env h self cy asset_codes fy ly w)) !! q
             = files w !! q).
  { intros q Hq. apply Hfiles. intros c y Hpair.
    apply in_prod_iff in Hpair as [Hc Hy]. apply In_requested_years in Hy. auto. }
  split; [exact Hframe |]. split; [| split; assumption].
  intros q Hq. apply Hframe. intros c y _ _ E. apply (Hq [_normalize_asset_code c; cache_filename c y]).
  rewrite E. unfold cache_path, path_join. now rewrite <- app_assoc.
Qed.

Lemma X9_files_of_a_run_witness :
  let w := write_file ["home"; "notes.txt"]%string [Byte.x03] Demo.empty_world in
  (forall rest, ["home"; "notes.txt"]%string <> cache_dir Demo.td ++ rest) /\
  files (snd (get_treasury_data_method Demo.env heap_at_import Demo.td 2024 None 2020
                (Some 2021) w)) !! ["home"; "notes.txt"]%string
  = Some [Byte.x03].
Proof.
  cbv zeta.
  assert (H : forall rest, ["home"; "notes.txt"]%string <> cache_dir Demo.td ++ rest)
    by (intros rest; simpl; discriminate).
  split; [exact H |].
  etransitivity.
  - exact (proj1 (proj2 (X9_files_of_a_run Demo.env heap_at_import Demo.td 2024 None
                           2020 (Some 2021)
                           (write_file ["home"; "notes.txt"]%string [Byte.x03]
                              Demo.empty_world))) _ H).
  - vm_compute. reflexivity.
Defined.

(* ===================================================================== *)
(** ** Cache paths *)
(* ===================================================================== *)






(* ===================================================================== *)
(** ** A run on a full cache *)
(* ===================================================================== *)

Lemma download_years_cached env self cy (c : string) (years : list Z) :
  forall all_files w,
    (forall y, In y years -> file_exists w (cache_path self c y) = true /\ y <> cy) ->
    exists w',
      download_years env self cy c years all_files w
      = (Ret (all_files ++ map (cache_path self c) years), w') /\
      files w' = files w /\ requests w' = requests w.
Proof.
  induction years as [| y rest IH]; intros all_files w Hall.
  - exists w. cbn [download_years map]. now rewrite app_nil_r.
  - cbn [download_years map].
    destruct (Hall y (or_introl eq_refl)) as [Hex Hne].
    rewrite _download_file_hit
      by (rewrite Hex; simpl; now apply negb_true_iff, Z.eqb_neq).
    set (w1 := mkdir (path_join (cache_dir self) (_normalize_asset_code c)) w).
    destruct (IH (all_files ++ [cache_path self c y]) w1) as (w' & E & Hf & Hr).
    { intros y' Hy'. exact (Hall y' (or_intror Hy')). }
    exists w'. rewrite E, <- app_assoc. split; [reflexivity |].
    split; [now rewrite Hf | now rewrite Hr].
Qed.

Lemma download_assets_cached env self cy (codes : list string) (years : list Z) :
  forall all_files w,
    (forall c y, In c codes -> In y years ->
                 file_exists w (cache_path self c y) = true /\ y <> cy) ->
    exists w',
      download_assets env self cy codes years all_files w
      = (Ret (all_files ++ flat_map (fun c => map (cache_path self c) years) codes), w') /\
      files w' = files w /\ requests w' = requests w.
Proof.
  induction codes as [| c rest IH]; intros all_files w Hall.
  - exists w. cbn [download_assets flat_map]. now rewrite app_nil_r.
  - cbn [download_assets flat_map].
    destruct (download_years_cached env self cy c years all_files w)
      as (w1 & -> & Hf1 & Hr1).
    { intros y Hy. apply Hall; simpl; auto. }
    destruct (IH (all_files ++ map (cache_path self c) years) w1) as (w' & E & Hf & Hr).
    { intros c' y Hc Hy. unfold file_exists. rewrite Hf1. apply Hall; simpl; auto. }
    exists w'. rewrite E, <- app_assoc. split; [reflexivity |].
    split; [now rewrite Hf, Hf1 | now rewrite Hr, Hr1].
Qed.

(** X11: when the cache holds the file of every requested asset and year and
    the current year is not among the years, [get_treasury_data] works from
    the cache alone: it sends no request and changes no file. *)
Theorem X11_full_cache_is_offline env h self cy asset_codes fy ly w :
  (forall c y, In c (requested_codes h asset_codes) ->
               effective_first_year fy <= y <= effective_last_year cy ly ->
               file_exists w (cache_path self c y) = true) ->
  ~ (effective_first_year fy <= cy <= effective_last_year cy ly) ->
  let w' := snd (get_treasury_data_method env h self cy asset_codes fy ly w) in
  requests w' = requests w /\ files w' = files w.
Proof.
  intros Hcached Hcy. cbv zeta. unfold get_treasury_data_method.
  fold (requested_codes h asset_codes).
  fold (effective_first_year fy). fold (effective_last_year cy ly).
  fold (requested_years cy fy ly).
  destruct (List.filter _ _); [| split; reflexivity].
  destruct (download_assets_cached env self cy (requested_codes h asset_codes)
              (requested_years cy fy ly) [] w) as (w' & -> & Hf & Hr).
  { intros c y Hc Hy. apply In_requested_years in Hy. split; [auto |].
    intros ->. now apply Hcy. }
  destruct (_ ++ _); cbn [snd]; [auto |].
  destruct (read_files _ _ _ _) as [[| d ds] | e]; cbn [snd]; auto.
Qed.

Lemma X11_full_cache_is_offline_witness :
  let w := write_file (cache_path Demo.td "LTN" 2020) [Byte.x02] Demo.empty_world in
  let w' := snd (get_treasury_data_method Demo.env heap_at_import Demo.td 2024
                   (Some ["LTN"%string]) 2020 (Some 2020) w) in
  requests w' = [] /\ files w' = files w.
Proof.
  cbv zeta.
  apply (X11_full_cache_is_offline Demo.env heap_at_import Demo.td 2024
           (Some ["LTN"%string]) 2020 (Some 2020)).
  - intros c y Hc Hy. simpl in Hc. destruct Hc as [<- | []].
    change (2020 <= y <= 2020) in Hy.
    assert (y = 2020) as -> by lia.
    vm_compute. reflexivity.
  - change (~ (2020 <= 2024 <= 2020)). lia.
Defined.

(* ===================================================================== *)
(** ** More on cleaning a sheet *)
(* ===================================================================== *)

Lemma coerce_row_firstn env (r : row) :
  coerce_row env (firstn 5 r) = coerce_row env r.
Proof. destruct r as [| a [| b [| c [| d [| e r]]]]]; reflexivity. Qed.

Lemma filter_length_le {A} (p : A -> bool) (l : list A) :
  (List.length (List.filter p l) <= List.length l)%nat.
Proof.
  induction l as [| x l IH]; simpl; [lia |]. destruct (p x); simpl; lia.
Qed.

(** X12: [_clean_data] returns an empty table as it is; on a table with rows
    and fewer than five columns it raises [IndexError]; on any other table
    it returns a table with the five labels of a price record and no more
    rows than it was given, and what it returns depends only on the first
    five cells of each row, not on the labels of the sheet nor on further
    columns. *)
Theorem X12_clean_data_cases env (df : DataFrame) :
  (df_empty df = true -> _clean_data env df = Ret df) /\
  (df_empty df = false -> (List.length (columns df) < 5)%nat ->
   _clean_data env df = Raise IndexError) /\
  (df_empty df = false -> (5 <= List.length (columns df))%nat ->
   exists out,
     _clean_data env df = Ret out /\
     columns out = CLEAN_COLUMNS /\
     (List.length (rows out) <= List.length (rows df))%nat /\
     _clean_data env (mkDataFrame CLEAN_COLUMNS (map (firstn 5) (rows df))) = Ret out).
Proof.
  split; [| split].
  - intros H. unfold _clean_data. now rewrite H.
  - intros H Hlt. rewrite (_clean_data_nonempty env df H).
    now apply Nat.leb_gt in Hlt as ->.
  - intros H Hge. rewrite (_clean_data_nonempty env df H).
    apply Nat.leb_le in Hge as ->. eexists. split; [reflexivity |].
    split; [reflexivity |]. cbn [rows]. split.
    + etransitivity; [apply filter_length_le |]. now rewrite length_map.
    + rewrite _clean_data_nonempty.
      * cbn [columns rows]. rewrite map_map.
        replace (5 <=? List.length CLEAN_COLUMNS)%nat with true by reflexivity.
        do 3 f_equal. apply map_ext. intros r. apply coerce_row_firstn.
      * apply df_empty_false. cbn [columns rows]. split; [discriminate |].
        apply df_empty_false in H as [_ H]. destruct (rows df); [congruence | discriminate].
Qed.

Lemma X12_clean_data_cases_witness :
  df_empty (Demo.sheet "LTN 010125") = false /\
  (5 <= List.length (columns (Demo.sheet "LTN 010125")))%nat /\
  exists out,
    _clean_data Demo.env (Demo.sheet "LTN 010125") = Ret out /\
    (List.length (rows out) <= 5)%nat.
Proof.
  assert (H1 : df_empty (Demo.sheet "LTN 010125") = false) by reflexivity.
  assert (H2 : (5 <= List.length (columns (Demo.sheet "LTN 010125")))%nat)
    by (vm_compute; lia).
  split; [exact H1 |]. split; [exact H2 |].
  destruct (proj2 (proj2 (X12_clean_data_cases Demo.env (Demo.sheet "LTN 010125"))) H1 H2)
    as (out & E & _ & Hlen & _).
  exists out. split; [exact E | exact Hlen].
Defined.

(* ===================================================================== *)
(** ** More on reading a file *)
(* ===================================================================== *)

(** One step of the loop over the sheets, case by case. *)
Lemma read_sheets_cons env (data : bytes) (sheet_name : string) (rest : list string)
    (all_data : list DataFrame) :
  read_sheets env data (sheet_name :: rest) all_data
  = match read_excel env data sheet_name with
    | Raise e => Raise e
    | Ret df =>
        if df_empty df then read_sheets env data rest all_data
        else if (5 <=? List.length (columns df))%nat then
          match List.filter row_kept (map (coerce_row env) (rows df)) with
          | [] => read_sheets env data rest all_data
          | kept =>
              read_sheets env data rest
                (all_data ++ [mkDataFrame FILE_COLUMNS
                                (map (fun r => r ++ [CStr sheet_name]) kept)])
          end
        else Raise IndexError
    end.
Proof.
  cbn [read_sheets]. destruct (read_excel env data sheet_name) as [df | e];
    [| reflexivity].
  cbn [bind]. destruct (df_empty df) eqn:Hemp; cbn [negb]; [reflexivity |].
  rewrite (_clean_data_nonempty env df Hemp).
  destruct (5 <=? _)%nat; [| reflexivity]. cbn [bind].
  destruct (List.filter row_kept (map (coerce_row env) (rows df))) as [| k ks] eqn:Hk.
  - reflexivity.
  - replace (df_empty (mkDataFrame CLEAN_COLUMNS (k :: ks))) with false by reflexivity.
    cbn [negb rows].
    now rewrite (set_column_new_rows "asset_code" (fun _ => CStr sheet_name)
                   CLEAN_COLUMNS (k :: ks) eq_refl).
Qed.

Lemma read_sheets_unreadable env (data : bytes) (sheet_name : string)
    (sheet_names : list string) :
  In sheet_name sheet_names -> sheet_unreadable env data sheet_name ->
  forall all_data, exists e, read_sheets env data sheet_names all_data = Raise e.
Proof.
  intros Hin Hbad.
  induction sheet_names as [| a rest IH]; [destruct Hin |].
  intros all_data. rewrite read_sheets_cons.
  destruct Hin as [-> | Hin].
  - destruct Hbad as [(e & ->) | (df & -> & Hemp & Hlt)]; [eauto |].
    rewrite Hemp. apply Nat.leb_gt in Hlt as ->. eauto.
  - destruct (read_excel env data a) as [df | e]; [| eauto].
    destruct (df_empty df); [now apply IH |].
    destruct (5 <=? _)%nat; [| eauto].
    destruct (List.filter _ _); now apply IH.
Qed.

(** X13: one sheet that cannot be read, or that has rows under fewer than
    five columns, makes [_read_excel_file] return the empty table for the
    whole file: the rows of the sheets read before it are given up too. *)
Theorem X13_one_bad_sheet_empties_the_file env (w : World) (file_path : Path)
    (data : bytes) (sheet_names : list string) (sheet_name : string) :
  files w !! file_path = Some data ->
  excel_sheet_names env data = Ret sheet_names ->
  In sheet_name sheet_names ->
  sheet_unreadable env data sheet_name ->
  _read_excel_file env w file_path = Ret DataFrame_new.
Proof.
  intros Hfile Hnames Hin Hbad.
  unfold _read_excel_file, read_excel_body, open_file.
  rewrite Hfile. cbn [bind]. rewrite Hnames. cbn [bind].
  destruct (read_sheets_unreadable env data sheet_name sheet_names Hin Hbad [])
    as (e & ->).
  reflexivity.
Qed.

Lemma X13_one_bad_sheet_empties_the_file_witness :
  sheet_records demo_notes_env [Byte.x02] "LTN 010125" <> [] /\
  _read_excel_file demo_notes_env demo_cached_world (cache_path Demo.td "LTN" 2020)
  = Ret DataFrame_new.
Proof.
  split; [vm_compute; discriminate |].
  apply (X13_one_bad_sheet_empties_the_file demo_notes_env demo_cached_world
           (cache_path Demo.td "LTN" 2020) [Byte.x02]
           ["LTN 010125"; "Notas"]%string "Notas"%string).
  - vm_compute. reflexivity.
  - reflexivity.
  - simpl. tauto.
  - right. eexists. split; [reflexivity |]. split; [reflexivity | simpl; lia].
Defined.

Lemma read_sheets_readable env (data : bytes) (sheet_names : list string) :
  (forall name, In name sheet_names -> sheet_readable env data name) ->
  forall all_data,
    read_sheets env data sheet_names all_data
    = Ret (all_data ++
           flat_map (fun name =>
                       match sheet_records env data name with
                       | [] => []
                       | rs => [mkDataFrame FILE_COLUMNS rs]
                       end) sheet_names).
Proof.
  induction sheet_names as [| a rest IH]; intros Hall all_data.
  - cbn [read_sheets flat_map]. now rewrite app_nil_r.
  - rewrite read_sheets_cons. cbn [flat_map]. unfold sheet_records at 1.
    destruct (Hall a (or_introl eq_refl)) as (df & -> & Hdf).
    assert (Hrest : forall name, In name rest -> sheet_readable env data name)
      by (intros name Hn; apply Hall; now right).
    destruct (df_empty df) eqn:Hemp; [now rewrite IH |].
    destruct Hdf as [? | Hge]; [congruence |]. apply Nat.leb_le in Hge as ->.
    destruct (List.filter row_kept (map (coerce_row env) (rows df))) as [| k ks];
      [now rewrite IH |].
    rewrite IH by assumption. cbn [map]. now rewrite <- app_assoc.
Qed.

Lemma flat_map_sheet_tables env (data : bytes) (sheet_names : list string) :
  flat_map rows
    (flat_map (fun name =>
                 match sheet_records env data name with
                 | [] => []
                 | rs => [mkDataFrame FILE_COLUMNS rs]
                 end) sheet_names)
  = flat_map (sheet_records env data) sheet_names.
Proof.
  induction sheet_names as [| a rest IH]; [reflexivity |].
  cbn [flat_map]. rewrite flat_map_app, IH. f_equal.
  destruct (sheet_records env data a); [reflexivity |].
  cbn [flat_map rows]. now rewrite app_nil_r.
Qed.

(** X14: when every sheet of a file can be read and is empty or has at least
    five columns, the table of the file holds, sheet after sheet in the order
    of the file, the converted rows that are kept, each with the name of its
    sheet as [asset_code]; it is the empty table when no row is kept. *)
Theorem X14_table_of_a_file env (w : World) (file_path : Path)
    (data : bytes) (sheet_names : list string) :
  files w !! file_path = Some data ->
  excel_sheet_names env data = Ret sheet_names ->
  (forall name, In name sheet_names -> sheet_readable env data name) ->
  _read_excel_file env w file_path
  = Ret match flat_map (sheet_records env data) sheet_names with
        | [] => DataFrame_new
        | rs => mkDataFrame FILE_COLUMNS rs
        end.
Proof.
  intros Hfile Hnames Hall.
  unfold _read_excel_file, read_excel_body, open_file.
  rewrite Hfile. cbn [bind]. rewrite Hnames. cbn [bind].
  pose proof (read_sheets_readable env data sheet_names Hall []) as Hread.
  rewrite app_nil_l in Hread.
  pose proof (read_sheets_file_tables env data sheet_names [] _
                (List.Forall_nil file_table) Hread) as Htables.
  rewrite Hread. cbn [bind]. rewrite <- flat_map_sheet_tables.
  destruct (flat_map _ sheet_names) as [| d ds]; [reflexivity |].
  cbn [try_except]. f_equal.
  destruct (pd_concat_file_tables d ds Htables) as (-> & _ & Hne & _).
  cbn [rows] in Hne. destruct (flat_map rows (d :: ds)); [congruence | reflexivity].
Qed.

Lemma X14_table_of_a_file_witness :
  _read_excel_file Demo.env demo_cached_world (cache_path Demo.td "LTN" 2020)
  = Ret (mkDataFrame FILE_COLUMNS
           (sheet_records Demo.env [Byte.x02] "LTN 010125"
            ++ sheet_records Demo.env [Byte.x02] "LTN 010123")).
Proof.
  etransitivity.
  - apply (X14_table_of_a_file Demo.env demo_cached_world
             (cache_path Demo.td "LTN" 2020) [Byte.x02]
             ["LTN 010125"; "LTN 010123"]%string).
    + vm_compute. reflexivity.
    + reflexivity.
    + intros name Hn. simpl in Hn. destruct Hn as [<- | [<- | []]];
        (eexists; split; [reflexivity | right; vm_compute; lia]).
  - vm_compute. reflexivity.
Defined.

(* ===================================================================== *)
(** ** The rows of the consolidated table *)
(* ===================================================================== *)

Lemma record_row_tagged env (r : row) : record_row env r -> tagged_row r.
Proof.
  intros (raw & name & Hkept & ->).
  destruct (kept_row_shape env raw Hkept) as (t & a & b & c & d & ->).
  exists t, a, b, c, d, name. reflexivity.
Qed.

Lemma record_table_intro env (rs : list row) :
  rs <> [] -> Forall (record_row env) rs ->
  record_table env (mkDataFrame FILE_COLUMNS rs).
Proof.
  intros Hne Hall. split; [| exact Hall].
  split; [reflexivity |]. split; [exact Hne |].
  exact (List.Forall_impl _ (record_row_tagged env) Hall).
Qed.

Lemma read_sheets_records env (data : bytes) (sheet_names : list string) :
  forall all_data out,
    Forall (record_table env) all_data ->
    read_sheets env data sheet_names all_data = Ret out ->
    Forall (record_table env) out.
Proof.
  induction sheet_names as [| a rest IH]; intros all_data out Hacc Hrun.
  - injection Hrun as <-. exact Hacc.
  - rewrite read_sheets_cons in Hrun.
    destruct (read_excel env data a) as [df | e]; [| discriminate].
    destruct (df_empty df); [exact (IH _ _ Hacc Hrun) |].
    destruct (5 <=? _)%nat; [| discriminate].
    destruct (List.filter row_kept (map (coerce_row env) (rows df))) as [| k ks] eqn:Hk;
      [exact (IH _ _ Hacc Hrun) |].
    refine (IH _ _ _ Hrun). apply Forall_app. split; [exact Hacc |].
    constructor; [| constructor].
    apply record_table_intro; [discriminate |].
    apply List.Forall_forall. intros r Hr.
    apply in_map_iff in Hr as (r5 & <- & Hr5). rewrite <- Hk in Hr5.
    apply filter_In in Hr5 as [Hin Hkept].
    apply in_map_iff in Hin as (raw & <- & _).
    exists raw, a. auto.
Qed.

Lemma flat_map_rows_records env (frames : list DataFrame) :
  Forall (record_table env) frames -> Forall (record_row env) (flat_map rows frames).
Proof.
  induction 1 as [| df frames (_ & Hrows) _ IH]; [constructor |].
  cbn [flat_map]. apply Forall_app. now split.
Qed.

Lemma record_tables_are_file_tables env (frames : list DataFrame) :
  Forall (record_table env) frames -> Forall file_table frames.
Proof.
  intros H. refine (List.Forall_impl _ _ H). now intros df [Hf _].
Qed.

Lemma _read_excel_file_records env (w : World) (file_path : Path) :
  exists df, _read_excel_file env w file_path = Ret df /\
             (df = DataFrame_new \/ record_table env df).
Proof.
  unfold _read_excel_file, try_except.
  destruct (read_excel_body env w file_path) as [df | e] eqn:Hbody; eauto.
  exists df. split; [reflexivity |].
  unfold read_excel_body in Hbody.
  destruct (open_file w file_path) as [data |]; [| discriminate]. cbn [bind] in Hbody.
  destruct (excel_sheet_names env data) as [names |]; [| discriminate].
  cbn [bind] in Hbody.
  destruct (read_sheets env data names []) as [all_data |] eqn:Hsheets; [| discriminate].
  cbn [bind] in Hbody.
  pose proof (read_sheets_records env data names [] all_data
                (List.Forall_nil (record_table env)) Hsheets) as Hall.
  destruct all_data as [| d ds]; injection Hbody as <-; [now left | right].
  pose proof (record_tables_are_file_tables env _ Hall) as Hft.
  destruct (pd_concat_file_tables d ds Hft) as (E & Hfile).
  split; [exact Hfile |]. rewrite E. cbn [rows].
  exact (flat_map_rows_records env _ Hall).
Qed.

Lemma read_files_records env (w : World) (all_files : list Path) :
  forall all_data,
    Forall (record_table env) all_data ->
    exists out, read_files env w all_files all_data = Ret out /\
                Forall (record_table env) out.
Proof.
  induction all_files as [| file_path rest IH]; intros all_data Hacc.
  - exists all_data. split; [reflexivity | exact Hacc].
  - cbn [read_files].
    destruct (_read_excel_file_records env w file_path) as (df & -> & [-> | Hdf]).
    + cbn [bind]. exact (IH all_data Hacc).
    + cbn [bind]. rewrite (file_table_not_empty df (proj1 Hdf)). cbn [negb].
      apply IH. apply Forall_app. split; [exact Hacc | now constructor].
Qed.

Lemma row_kept_is_clean_output (a b c d e x y : cell) :
  row_kept [a; b; c; d; e] = true ->
  row_is_clean OUTPUT_COLUMNS [a; b; c; d; e; x; y].
Proof.
  unfold row_kept. intros H. apply andb_prop in H as [Hna Hnz].
  simpl in Hna. repeat (apply andb_prop in Hna as [?%negb_true_iff Hna]).
  split; [| exact Hnz].
  intros name Hname. unfold CLEAN_COLUMNS in Hname. simpl in Hname.
  repeat (destruct Hname as [<- | Hname]; [assumption |]). contradiction.
Qed.

Lemma insert_row_perm (cols : list string) (r : row) (l : list row) :
  Permutation (insert_row cols r l) (r :: l).
Proof.
  induction l as [| r' rest IH]; cbn [insert_row]; [reflexivity |].
  destruct (key_le _ _); [reflexivity |].
  rewrite IH. apply perm_swap.
Qed.

Lemma sort_rows_perm (cols : list string) (l : list row) :
  Permutation (sort_rows cols l) l.
Proof.
  induction l as [| r rest IH]; cbn [sort_rows]; [reflexivity |].
  rewrite insert_row_perm. now constructor.
Qed.

(** The table the method returns, from the files fetched and their tables. *)
Lemma get_treasury_data_method_table env h self cy asset_codes fy ly w df w' :
  get_treasury_data_method env h self cy asset_codes fy ly w = (Ret df, w') ->
  exists all_files all_data,
    download_assets env self cy (requested_codes h asset_codes)
      (requested_years cy fy ly) [] w = (Ret all_files, w') /\
    read_files env w' all_files [] = Ret all_data /\
    Forall (record_table env) all_data /\
    match all_data with
    | [] => df = DataFrame_new
    | _ => df = mkDataFrame OUTPUT_COLUMNS
                  (sort_rows OUTPUT_COLUMNS (map finalize_row (flat_map rows all_data)))
    end.
Proof.
  unfold get_treasury_data_method. fold (requested_codes h asset_codes).
  fold (effective_first_year fy). fold (effective_last_year cy ly).
  fold (requested_years cy fy ly).
  destruct (List.filter _ _); [| discriminate].
  destruct (download_assets _ _ _ _ _ _ _) as [[all_files | e] w1]; [| discriminate].
  destruct (read_files_records env w1 all_files [] (List.Forall_nil _))
    as (all_data & Hread & Hall).
  destruct all_files as [| p ps].
  { intros [= <- <-]. exists [], []. cbn [read_files]. auto. }
  rewrite Hread. destruct all_data as [| d ds].
  { intros [= <- <-]. exists (p :: ps), []. auto. }
  rewrite (consolidate_file_tables d ds (record_tables_are_file_tables env _ Hall)).
  intros [= <- <-]. exists (p :: ps), (d :: ds). auto.
Qed.

(** X15: every row of the table [get_treasury_data] returns is a price
    record: seven values; a date, two yields and two prices that are not
    missing; a bid price that is not zero; a code without underscore; and as
    maturity the date read from that code, or a missing value.  A table that
    is not the empty one has the seven labels and at least one row. *)
Theorem X15_rows_are_price_records env h self cy asset_codes fy ly w df w' :
  get_treasury_data_method env h self cy asset_codes fy ly w = (Ret df, w') ->
  (df = DataFrame_new \/ (columns df = OUTPUT_COLUMNS /\ rows df <> [])) /\
  forall r, In r (rows df) ->
    List.length r = 7%nat /\
    row_is_clean (columns df) r /\
    exists code,
      get (columns df) "asset_code" r = CStr code /\
      contains_char "_" code = false /\
      get (columns df) "maturity_date" r = maturity_cell code.
Proof.
  intros Hrun.
  destruct (get_treasury_data_method_table _ _ _ _ _ _ _ _ _ _ Hrun)
    as (all_files & all_data & _ & _ & Hall & Hdf).
  destruct all_data as [| d ds]; [subst df; split; [now left | intros r []] |].
  subst df. cbn [columns rows]. split.
  - right. split; [reflexivity |].
    intros E. apply (f_equal (@List.length row)) in E.
    rewrite (Permutation_length (sort_rows_perm _ _)), length_map in E.
    inversion Hall as [| ? ? ((_ & Hne & _) & _) _]; subst.
    cbn [flat_map] in E. rewrite length_app in E.
    destruct (rows d); [congruence | simpl in E; lia].
  - intros r Hr. apply sort_rows_In in Hr.
    apply in_map_iff in Hr as (r0 & <- & Hr0).
    pose proof (proj1 (List.Forall_forall _ _) (flat_map_rows_records env _ Hall) r0 Hr0)
      as (raw & name & Hkept & ->).
    unfold coerce_row in *. cbn [app finalize_row].
    split; [reflexivity |].
    split; [now apply row_kept_is_clean_output |].
    exists (_denormalize_asset_code name).
    split; [reflexivity |]. split; [apply _denormalize_no_underscore | reflexivity].
Qed.

Lemma X15_rows_are_price_records_witness :
  exists df w',
    get_treasury_data_method Demo.env heap_at_import Demo.td 2024 (Some ["LTN"%string])
      2020 (Some 2020) Demo.empty_world = (Ret df, w') /\
    List.length (rows df) = 3%nat /\
    forall r, In r (rows df) -> List.length r = 7%nat /\ row_is_clean (columns df) r.
Proof.
  eexists _, _. split; [vm_compute; reflexivity |]. split; [reflexivity |].
  intros r Hr.
  destruct (proj2 (X15_rows_are_price_records Demo.env heap_at_import Demo.td 2024
                     (Some ["LTN"%string]) 2020 (Some 2020) Demo.empty_world _ _
                     ltac:(vm_compute; reflexivity)) r Hr) as (Hlen & Hclean & _).
  split; [exact Hlen | exact Hclean].
Defined.

(** X16: the consolidation loses and repeats nothing: the rows of the table
    returned are, in another order, the rows of the tables of the files
    fetched, each finished with its display code and its maturity. *)
Theorem X16_no_row_lost env h self cy asset_codes fy ly w df w' :
  get_treasury_data_method env h self cy asset_codes fy ly w = (Ret df, w') ->
  exists all_files all_data,
    download_assets env self cy (requested_codes h asset_codes)
      (requested_years cy fy ly) [] w = (Ret all_files, w') /\
    read_files env w' all_files [] = Ret all_data /\
    Permutation (rows df) (map finalize_row (flat_map rows all_data)) /\
    List.length (rows df) = list_sum (map (fun d => List.length (rows d)) all_data).
Proof.
  intros Hrun.
  destruct (get_treasury_data_method_table _ _ _ _ _ _ _ _ _ _ Hrun)
    as (all_files & all_data & Hdown & Hread & _ & Hdf).
  exists all_files, all_data. split; [exact Hdown |]. split; [exact Hread |].
  assert (Hperm : Permutation (rows df) (map finalize_row (flat_map rows all_data))).
  { destruct all_data as [| d ds]; subst df; cbn [rows]; [reflexivity |].
    apply sort_rows_perm. }
  split; [exact Hperm |].
  rewrite (Permutation_length Hperm), length_map.
  clear. induction all_data as [| d ds IH]; [reflexivity |].
  cbn [flat_map map list_sum]. now rewrite length_app, IH.
Qed.

Lemma X16_no_row_lost_witness :
  exists df w',
    get_treasury_data_method Demo.env heap_at_import Demo.td 2024 (Some ["LTN"%string])
      2020 (Some 2021) Demo.empty_world = (Ret df, w') /\
    List.length (rows df) = 6%nat /\
    exists all_files all_data,
      read_files Demo.env w' all_files [] = Ret all_data /\
      Permutation (rows df) (map finalize_row (flat_map rows all_data)).
Proof.
  eexists _, _. split; [vm_compute; reflexivity |]. split; [reflexivity |].
  destruct (X16_no_row_lost Demo.env heap_at_import Demo.td 2024 (Some ["LTN"%string])
              2020 (Some 2021) Demo.empty_world _ _ ltac:(vm_compute; reflexivity))
    as (all_files & all_data & _ & Hread & Hperm & _).
  exists all_files, all_data. split; [exact Hread | exact Hperm].
Defined.
